(** * entry-hw relay server: a shallow embedding of [Server] and its handlers

    The development follows the JavaScript class [Server] (the socket.io
    relay between the hardware process and the Entry workspace) and the
    [rendererConsole] utility it logs through.  Every method and every
    registered event handler becomes a computation in a small state and
    exception monad over an explicit [World]: the fields of the [Server]
    object, the socket objects it has seen, the pieces of the environment the
    code reads, and the list of externally visible calls made so far. *)

From stdpp Require Import gmap strings pretty list fin_maps fin_sets.
From Stdlib Require Import ZArith Lia.

Open Scope string_scope.
Open Scope Z_scope.
Open Scope list_scope.

(** ** Values *)

(** A room id, module name or message key as the code sees it: a string, or
    [undefined] ([None]). *)
Abbreviation jsv := (option string).

(** JavaScript truthiness on such a value. *)
Definition truthy (v : jsv) : bool :=
  match v with
  | Some s => bool_decide (s ≠ "")
  | None => false
  end.

(** Property-key coercion of [obj[v]]. *)
Definition prop_key (v : jsv) : string := default "undefined" v.

(** Modelled from the spec: the table [SERVER_MODE_TYPES] of
    [../common/constants] is not part of the sources at hand; the spec names
    its four entries (DisplayMode Single/Multi, Role Hub/Subordinate), taken
    here as four distinct constants. *)
Inductive server_mode := single | multi | parent | child.

#[global] Instance server_mode_eq_dec : EqDecision server_mode.
Proof. solve_decision. Defined.

(** The [mode] field of a message: one of the constants, or anything else. *)
Inductive mode_field := ModeConst (m : server_mode) | ModeOther.

#[global] Instance mode_field_eq_dec : EqDecision mode_field.
Proof. solve_decision. Defined.

(** What [const { name } = JSON.parse(message.data)] does on the [data] of a
    message. [JSON.parse] throws a SyntaxError on text that is not JSON
    ([ParseThrows]); on the text [null] it returns [null], and the
    destructuring of [null] throws a TypeError ([ParsedNull]); every other
    JSON value can be destructured, and [name] is bound to its [name]
    property, [undefined] when it has none ([ParsedName]). The payload is
    otherwise opaque to the relay, so the message carries that outcome. *)
Inductive json_name := ParseThrows | ParsedNull | ParsedName (name : jsv).

#[global] Instance json_name_eq_dec : EqDecision json_name.
Proof. solve_decision. Defined.

Record message := Message {
  action : jsv;
  mode : mode_field;
  data : json_name;
  key : jsv;
}.

#[global] Instance message_eq_dec : EqDecision message.
Proof. solve_decision. Defined.

(** Socket objects: the sockets handed to the socket.io server's
    [connection] handler (identified by their [id]) and the sockets made by
    [_createSocketClient] (numbered in creation order). *)
Inductive sockref := SrvSocket (id : string) | CliSocket (n : nat).

#[global] Instance sockref_eq_dec : EqDecision sockref.
Proof. solve_decision. Defined.

(** Anything that can be passed where a connection is expected. *)
Inductive obj := ObjSocket (c : sockref) | ObjServer.

(** [handshake.query] of a server-side socket. *)
Record query := Query {
  q_childServer : jsv;
  q_roomId : jsv;
}.

(** The mutable attributes of a server-side socket. *)
Record socket := Socket {
  handshake : option query;
  roomId : jsv;
  roomIds : option (list jsv);
}.

(** [this.socketClient]: [undefined], [null] or a client socket. *)
Inductive client_handle := HUndefined | HNull | HSocket (n : nat).

(** Arguments of the emit calls. *)
Inductive payload :=
| PNone
| PMode (m : server_mode)
| PMessage (m : message)
| PMatchTarget (r : jsv)
| PMatched (id : string)
| PData (pkt : list Z)
| PDisconnectHardware.

(** Result of [const { key = true } = message]. *)
Inductive ack_value := AckTrue | AckKey (k : string).

(** File paths, kept as the calls of Node's [path] module that build them:
    what [path.resolve] returns depends on the working directory of the
    process, and [path.join] normalises what it joins. *)
Inductive fs_path :=
| PathResolve (segments : list string)
| PathJoin (dir : fs_path) (name : string).

(** Calls that leave the [Server] object, in program order. *)
Inductive effect :=
| RouterNotifyServerMode (m : server_mode)
| RouterHandleServerData (p : payload)
| RouterSendState (kind : string) (config : string)
| RouterStartScan (config : string)
| IoEmit (event : string) (p : payload)
| IoToEmit (room : jsv) (event : string) (p : payload)
| IoToInheritedEmit (member : string) (event : string) (p : payload)
| IoListen (transports : list string)
| IoClose
| SocketEmit (c : sockref) (event : string) (p : payload)
| SocketJoin (c : sockref) (room : jsv)
| SocketClose (c : sockref)
| SelfEmit (event : string)
| SenderSend (channel : string) (args : list string)
| ConsoleLog (line : string)
| HttpListen (port : Z)
| HttpClose
| IoClientOpen (address : string) (childServer : bool) (attempts : Z) (n : nat)
| NetRequest (method host protocol path : string)
| ResponsePipe (dir : fs_path)
| FsReadFile (path : fs_path)
| Ack (k : ack_value).

Inductive exn := TypeError (what : string) | SyntaxError (what : string).

(** ** The server object and its world *)

(** The objects used as dictionaries ([connectionSet], [childServerList],
    [clientTargetList]) are finite maps from property keys, holding the
    properties of the object itself. socket.io gives every socket an id of
    its own, which stands for the socket object; [connectionSet] and
    [childServerList] are keyed by these ids and are only written, deleted
    from and counted. [clientTargetList] is keyed by room ids, which the peers
    choose, and it is read by key: being a plain object, it also answers
    for the members it inherits from [Object.prototype]. *)

(** The members of [Object.prototype] (ECMAScript, with the legacy accessors
    of its Annex B). *)
Definition object_prototype_keys : list string :=
  ["constructor"; "__defineGetter__"; "__defineSetter__"; "hasOwnProperty";
   "__lookupGetter__"; "__lookupSetter__"; "isPrototypeOf";
   "propertyIsEnumerable"; "toString"; "valueOf"; "__proto__";
   "toLocaleString"].

(** What [o[k]] finds in a plain object [o] that holds strings: a property
    of [o] itself, or else the inherited member of that name (a function, or
    [Object.prototype] for [__proto__]). *)
Inductive looked_up := OwnValue (v : string) | Inherited (member : string).

(** [o[k]] *)
Definition obj_get (o : gmap string string) (k : string) : option looked_up :=
  match o !! k with
  | Some v => Some (OwnValue v)
  | None =>
      if bool_decide (k ∈ object_prototype_keys) then Some (Inherited k) else None
  end.

(** [o[k] = v] for a string [v]: under the key [__proto__] the inherited
    setter runs, which ignores a value that is neither an object nor [null];
    under any other key the property is created or overwritten. *)
Definition obj_set (k v : string) (o : gmap string string) : gmap string string :=
  if decide (k = "__proto__") then o else <[k := v]> o.

(** Truthiness of a value that was looked up: functions and objects are
    truthy. *)
Definition truthy_found (t : looked_up) : bool :=
  match t with
  | OwnValue v => bool_decide (v ≠ "")
  | Inherited _ => true
  end.

Record Server := mkServer {
  packet : list Z;
  connections : list sockref;
  connectionSet : gmap string sockref;
  roomCnt : Z;
  childServerList : gmap string bool;
  clientTargetList : gmap string string;
  runningMode : server_mode;
  currentServerMode : server_mode;
  masterRoomIds : list jsv;
  clientRoomId : jsv;
  socketClient : client_handle;
  socketServer : option unit;
  httpServer : option unit;
  state : jsv;
}.

Record World := mkWorld {
  srv : Server;
  sockets : gmap string socket;          (* server-side socket objects, by id *)
  client_modes : gmap nat payload;       (* [socket.mode] of client sockets *)
  next_client : nat;                     (* client sockets created so far *)
  router_roomIds : list jsv;             (* [this.router.roomIds] *)
  sender : option unit;                  (* [rendererConsole.sender] *)
  sharedObject : option (string * string); (* [global.sharedObject] *)
  ssl_cert : bool;                       (* [fs.existsSync(.../ssl/cert.pem)] *)
  trace : list effect;
}.

(** [new Server(router)] *)
Definition constructor : Server :=
  {| packet := [0x01; 0x00; 0x00; 0x00];
     connections := [];
     connectionSet := ∅;
     roomCnt := 0;
     childServerList := ∅;
     clientTargetList := ∅;
     runningMode := parent;
     currentServerMode := single;
     masterRoomIds := [];
     clientRoomId := Some "";
     socketClient := HUndefined;
     socketServer := None;
     httpServer := None;
     state := None |}.

(** Field updates. *)
Definition set_packet v (s : Server) : Server :=
  mkServer v (connections s) (connectionSet s) (roomCnt s) (childServerList s)
    (clientTargetList s) (runningMode s) (currentServerMode s) (masterRoomIds s)
    (clientRoomId s) (socketClient s) (socketServer s) (httpServer s) (state s).
Definition set_connections v (s : Server) : Server :=
  mkServer (packet s) v (connectionSet s) (roomCnt s) (childServerList s)
    (clientTargetList s) (runningMode s) (currentServerMode s) (masterRoomIds s)
    (clientRoomId s) (socketClient s) (socketServer s) (httpServer s) (state s).
Definition set_connectionSet v (s : Server) : Server :=
  mkServer (packet s) (connections s) v (roomCnt s) (childServerList s)
    (clientTargetList s) (runningMode s) (currentServerMode s) (masterRoomIds s)
    (clientRoomId s) (socketClient s) (socketServer s) (httpServer s) (state s).
Definition set_childServerList v (s : Server) : Server :=
  mkServer (packet s) (connections s) (connectionSet s) (roomCnt s) v
    (clientTargetList s) (runningMode s) (currentServerMode s) (masterRoomIds s)
    (clientRoomId s) (socketClient s) (socketServer s) (httpServer s) (state s).
Definition set_clientTargetList v (s : Server) : Server :=
  mkServer (packet s) (connections s) (connectionSet s) (roomCnt s)
    (childServerList s) v (runningMode s) (currentServerMode s) (masterRoomIds s)
    (clientRoomId s) (socketClient s) (socketServer s) (httpServer s) (state s).
Definition set_runningMode v (s : Server) : Server :=
  mkServer (packet s) (connections s) (connectionSet s) (roomCnt s)
    (childServerList s) (clientTargetList s) v (currentServerMode s)
    (masterRoomIds s) (clientRoomId s) (socketClient s) (socketServer s)
    (httpServer s) (state s).
Definition set_currentServerMode v (s : Server) : Server :=
  mkServer (packet s) (connections s) (connectionSet s) (roomCnt s)
    (childServerList s) (clientTargetList s) (runningMode s) v
    (masterRoomIds s) (clientRoomId s) (socketClient s) (socketServer s)
    (httpServer s) (state s).
Definition set_masterRoomIds v (s : Server) : Server :=
  mkServer (packet s) (connections s) (connectionSet s) (roomCnt s)
    (childServerList s) (clientTargetList s) (runningMode s)
    (currentServerMode s) v (clientRoomId s) (socketClient s) (socketServer s)
    (httpServer s) (state s).
Definition set_clientRoomId v (s : Server) : Server :=
  mkServer (packet s) (connections s) (connectionSet s) (roomCnt s)
    (childServerList s) (clientTargetList s) (runningMode s)
    (currentServerMode s) (masterRoomIds s) v (socketClient s) (socketServer s)
    (httpServer s) (state s).
Definition set_socketClient v (s : Server) : Server :=
  mkServer (packet s) (connections s) (connectionSet s) (roomCnt s)
    (childServerList s) (clientTargetList s) (runningMode s)
    (currentServerMode s) (masterRoomIds s) (clientRoomId s) v (socketServer s)
    (httpServer s) (state s).
Definition set_socketServer v (s : Server) : Server :=
  mkServer (packet s) (connections s) (connectionSet s) (roomCnt s)
    (childServerList s) (clientTargetList s) (runningMode s)
    (currentServerMode s) (masterRoomIds s) (clientRoomId s) (socketClient s) v
    (httpServer s) (state s).
Definition set_httpServer v (s : Server) : Server :=
  mkServer (packet s) (connections s) (connectionSet s) (roomCnt s)
    (childServerList s) (clientTargetList s) (runningMode s)
    (currentServerMode s) (masterRoomIds s) (clientRoomId s) (socketClient s)
    (socketServer s) v (state s).
Definition set_state v (s : Server) : Server :=
  mkServer (packet s) (connections s) (connectionSet s) (roomCnt s)
    (childServerList s) (clientTargetList s) (runningMode s)
    (currentServerMode s) (masterRoomIds s) (clientRoomId s) (socketClient s)
    (socketServer s) (httpServer s) v.

Definition with_srv (f : Server → Server) (w : World) : World :=
  mkWorld (f (srv w)) (sockets w) (client_modes w) (next_client w)
    (router_roomIds w) (sender w) (sharedObject w) (ssl_cert w) (trace w).
Definition with_sockets (f : gmap string socket → gmap string socket)
    (w : World) : World :=
  mkWorld (srv w) (f (sockets w)) (client_modes w) (next_client w)
    (router_roomIds w) (sender w) (sharedObject w) (ssl_cert w) (trace w).
Definition with_client_modes (f : gmap nat payload → gmap nat payload)
    (w : World) : World :=
  mkWorld (srv w) (sockets w) (f (client_modes w)) (next_client w)
    (router_roomIds w) (sender w) (sharedObject w) (ssl_cert w) (trace w).
Definition with_next_client (f : nat → nat) (w : World) : World :=
  mkWorld (srv w) (sockets w) (client_modes w) (f (next_client w))
    (router_roomIds w) (sender w) (sharedObject w) (ssl_cert w) (trace w).
Definition with_trace (f : list effect → list effect) (w : World) : World :=
  mkWorld (srv w) (sockets w) (client_modes w) (next_client w)
    (router_roomIds w) (sender w) (sharedObject w) (ssl_cert w) (f (trace w)).

(** ** The monad of handlers: state, plus JavaScript exceptions *)

Inductive result (A : Type) := Ok (a : A) | Throw (e : exn).
Arguments Ok {A} a.
Arguments Throw {A} e.

Definition M (A : Type) : Type := World → result A * World.

#[global] Instance M_ret : MRet M := λ A a w, (Ok a, w).
#[global] Instance M_bind : MBind M := λ A B k m w,
  match m w with
  | (Ok a, w') => k a w'
  | (Throw e, w') => (Throw e, w')
  end.
Definition throw {A} (e : exn) : M A := λ w, (Throw e, w).

Definition get : M World := λ w, (Ok w, w).
Definition this : M Server := λ w, (Ok (srv w), w).
Definition update (f : Server → Server) : M unit := λ w, (Ok tt, with_srv f w).
Definition update_sockets (f : gmap string socket → gmap string socket) : M unit :=
  λ w, (Ok tt, with_sockets f w).
Definition call (e : effect) : M unit :=
  λ w, (Ok tt, with_trace (λ t, t ++ [e]) w).
Definition when (b : bool) (m : M unit) : M unit := if b then m else mret tt.

(** [l.forEach(f)] *)
Fixpoint forEach {A} (l : list A) (f : A → M unit) : M unit :=
  match l with
  | [] => mret tt
  | x :: l' => f x ;; forEach l' f
  end.

(** [l.indexOf(x)], with strict equality. *)
Fixpoint indexOf_from {A} `{EqDecision A} (x : A) (l : list A) (i : Z) : Z :=
  match l with
  | [] => -1
  | y :: l' => if decide (y = x) then i else indexOf_from x l' (i + 1)
  end.
Definition indexOf {A} `{EqDecision A} (x : A) (l : list A) : Z :=
  indexOf_from x l 0.

(** [Object.keys(o).length] *)
Definition keys_length {V} (o : gmap string V) : Z := Z.of_nat (size o).

(** Run a handler and keep what it did. *)
Definition run {A} (m : M A) (w : World) : World := snd (m w).
Definition outcome {A} (m : M A) (w : World) : result A := fst (m w).
(** The calls a handler made on [w]. *)
Definition emitted {A} (m : M A) (w : World) : list effect :=
  drop (length (trace w)) (trace (run m w)).

(** ** [rendererConsole] *)

Module rendererConsole.

(** [this.sender.send(channel, ...args)]: a [TypeError] while [sender] is
    still undefined. *)
Definition send (channel : string) (args : list string) : M unit :=
  w ← get;
  match sender w with
  | Some _ => call (SenderSend channel args)
  | None => throw (TypeError "Cannot read property 'send' of undefined")
  end.

(** [initialize(rendererWindow)]. The guard [!rendererWindow instanceof
    BrowserWindow] applies [instanceof] to a boolean and is never true, so
    the only failure left is reading [webContents] off a missing window.
    [rendererWindow] is [None] when no window is passed, else its
    [webContents]. *)
Definition initialize (rendererWindow : option (option unit)) : M unit :=
  match rendererWindow with
  | Some webContents =>
      λ w, (Ok tt, mkWorld (srv w) (sockets w) (client_modes w) (next_client w)
                     (router_roomIds w) webContents (sharedObject w)
                     (ssl_cert w) (trace w))
  | None => throw (TypeError "Cannot read property 'webContents' of undefined")
  end.

Definition log (contents : string) (args : list string) : M unit :=
  send "console" (contents :: args).
Definition info (contents : string) : M unit :=
  send "console" [String.append "%c" contents; "color: dodgerblue"].
Definition warn (contents : string) : M unit :=
  send "console" [String.append "%c" contents; "color: orange"].
Definition error (contents : string) (err : string) : M unit :=
  send "console" [String.append "%c" contents; "color: red"; err].

End rendererConsole.

(** ** [Server] methods *)

Definition push_masterRoomId (r : jsv) : M unit :=
  update (λ s, set_masterRoomIds (masterRoomIds s ++ [r]) s).

Definition addRoomIdsOnSecondInstance (roomId : jsv) : M unit :=
  s ← this;
  if decide (runningMode s = parent) then
    when (bool_decide (indexOf roomId (masterRoomIds s) = -1))
      (push_masterRoomId roomId)
  else
    when (truthy roomId)
      (update (set_clientRoomId roomId);;
       match socketClient s with
       | HSocket n => call (SocketEmit (CliSocket n) "matchTarget" (PMatchTarget roomId))
       | _ => mret tt
       end;;
       s ← this;
       when (bool_decide (indexOf roomId (masterRoomIds s) = -1))
         (push_masterRoomId roomId)).

Definition toggleServerMode (m : server_mode) : M unit :=
  update (set_currentServerMode m);;
  call (RouterNotifyServerMode m).

Definition PORT : Z := 23518.

(** [_getHttpServer(port)]: the address half of the result. The certificate
    bundle is read when [ssl/cert.pem] exists. *)
Definition _getHttpServer (port : Z) : M string :=
  w ← get;
  if ssl_cert w
  then mret (String.append "https://hardware.playentry.org:" (pretty port))
  else mret (String.append "http://127.0.0.1:" (pretty port)).

(** [open()]: build the http server, register the two handlers below, and
    listen. Which of the two fires is the transport's answer. *)
Definition open : M unit :=
  _ ← _getHttpServer PORT;
  call (HttpListen PORT).

Definition reconnectionAttempts : Z := 3.

(** [_createSocketClient(address)]: the construction of the socket. Its
    handlers are the [client_on_*] definitions. *)
Definition _createSocketClient (address : string) : M nat :=
  w ← get;
  let n := next_client w in
  (λ w, (Ok tt, with_next_client S w));;
  call (IoClientOpen address true reconnectionAttempts n);;
  mret n.

(** [httpServer.on('error', ...)] *)
Definition http_on_error : M unit :=
  address ← _getHttpServer PORT;
  update (set_runningMode child);;
  toggleServerMode multi;;
  n ← _createSocketClient address;
  update (λ s, set_connections (connections s ++ [CliSocket n]) s);;
  update (set_socketClient (HSocket n)).

Definition transports : list string :=
  ["websocket"; "flashsocket"; "htmlfile"; "xhr-polling"; "jsonp-polling"; "polling"].

(** [httpServer.on('listening', ...)] *)
Definition http_on_listening : M unit :=
  w ← get;
  let mRoomIds := router_roomIds w in
  when (bool_decide (Z.of_nat (length mRoomIds) > 0))
    (forEach mRoomIds (λ mRoomId,
       s ← this;
       when (bool_decide (indexOf mRoomId (masterRoomIds s) = -1) && truthy mRoomId)
         (push_masterRoomId mRoomId)));;
  update (set_runningMode parent);;
  update (set_httpServer (Some tt));;
  call (IoListen transports);;
  update (set_socketServer (Some tt)).

(** Handlers on the client socket [n] made by [_createSocketClient]. *)
Definition client_on_connect (n : nat) : M unit :=
  w ← get;
  let roomIds := router_roomIds w in
  when (bool_decide (Z.of_nat (length roomIds) > 0))
    (forEach roomIds (λ roomId,
       when (truthy roomId)
         (s ← this;
          when (bool_decide (indexOf roomId (masterRoomIds s) = -1))
            (push_masterRoomId roomId);;
          call (SocketEmit (CliSocket n) "matchTarget" (PMatchTarget roomId))))).

Definition client_on_message (n : nat) (p : payload) : M unit :=
  call (RouterHandleServerData p).

Definition client_on_mode (n : nat) (data : payload) : M unit :=
  λ w, (Ok tt, with_client_modes (<[n := data]>) w).

Definition client_on_reconnect_failed (n : nat) : M unit :=
  call (SocketClose (CliSocket n));;
  toggleServerMode single;;
  update (set_socketClient HNull);;
  open.

Definition client_on_disconnect (n : nat) : M unit :=
  call (SocketClose (CliSocket n));;
  update (set_socketClient HNull);;
  open.

(** [l.slice(b, e)] for non-negative [b] and [e]: a fresh list, [l] itself
    is left as it is. *)
Definition slice {A} (l : list A) (b e : Z) : list A :=
  take (Z.to_nat e - Z.to_nat b) (drop (Z.to_nat b) l).

Definition closeSingleConnection (connection : obj) : M unit :=
  s ← this;
  let connections := connections s in
  match connection with
  | ObjSocket c =>
      let index := indexOf c connections in
      when (bool_decide (index > -1))
        (let _ := slice connections index 1 in
         call (SocketClose c))
  | ObjServer =>
      (* [indexOf] finds no [Server] in a list of sockets: [index] is -1 *)
      mret tt
  end.

Definition send (p : payload) : M unit :=
  s ← this;
  let childServerListCnt := keys_length (childServerList s) in
  if bool_decide (runningMode s = parent) && bool_decide (childServerListCnt = 0)
     || bool_decide (runningMode s = child)
  then
    when (bool_decide (Z.of_nat (length (connections s)) ≠ 0))
      (forEach (connections s) (λ connection,
         call (SocketEmit connection "message" p)))
  else
    when (bool_decide (Z.of_nat (length (masterRoomIds s)) > 0))
      (forEach (masterRoomIds s) (λ masterRoomId,
         s ← this;
         match socketServer s with
         | Some _ => call (IoToEmit masterRoomId "message" p)
         | None => throw (TypeError "Cannot read property 'to' of undefined")
         end)).

(** [packet[3] = v] followed by [this.send({ data: packet })]. A write
    outside the buffer is dropped. *)
Definition send_packet (v : Z) : M unit :=
  update (λ s, set_packet (<[3%nat := v]> (packet s)) s);;
  s ← this;
  send (PData (packet s)).

Definition setState (st : jsv) : M unit :=
  update (set_state st);;
  s ← this;
  when (bool_decide (Z.of_nat (length (connections s)) ≠ 0))
    (if decide (st = Some "connecting") then send_packet 0x01
     else if decide (st = Some "connected") then send_packet 0x02
     else if decide (st = Some "lost") then send_packet 0x03
     else if decide (st = Some "disconnected") then send_packet 0x04
     else mret tt).

Definition disconnectHardware : M unit := send PDisconnectHardware.

Definition close : M unit :=
  s ← this;
  when (bool_decide (is_Some (socketServer s)))
    (call IoClose;; update (set_socketServer None));;
  s ← this;
  when (bool_decide (is_Some (httpServer s)))
    (call HttpClose;; update (set_httpServer None));;
  update (set_connections []);;
  call (SelfEmit "closed").

(** *** [_requestHardware] *)

Inductive promise := Pending | Resolved | Rejected.

Definition module_path (moduleName : string) : string :=
  String.append "/api/hardware/" (String.append moduleName "/module").

(** [path.resolve('app', 'modules')] *)
Definition moduleDirPath : fs_path := PathResolve ["app"; "modules"].

(** The executor of [_requestHardware(moduleName)], up to [request.end()].
    An exception inside a promise executor rejects the promise. *)
Definition _requestHardware (moduleName : jsv) : M promise :=
  if negb (truthy moduleName) then mret Rejected
  else
    let path := module_path (prop_key moduleName) in
    call (ConsoleLog path);;
    w ← get;
    match sharedObject w with
    | None => mret Rejected
    | Some _ =>
        (* [net.request] without a [method] option issues a GET *)
        call (NetRequest "GET" "localhost:4000" "http:" path);;
        mret Pending
    end.

(** [request.on('response', ...)] *)
Definition request_on_response (moduleName : jsv) (statusCode : Z) : M promise :=
  if decide (statusCode = 200) then
    call (ResponsePipe moduleDirPath);;
    mret Pending
  else mret Rejected.

(** [response.on('error', reject)] *)
Definition response_on_error : M promise := mret Rejected.

(** [zipStream.on('done', ...)] *)
Definition zipStream_on_done (moduleName : jsv) : M promise :=
  call (ConsoleLog "donedone");;
  call (FsReadFile (PathJoin moduleDirPath
                      (String.append (prop_key moduleName) ".json")));;
  mret Resolved.

(** What [JSON.parse(data)] does on the file that was read. *)
Inductive json_config := ConfigThrows | Config (config : string).

(** The callback of [fs.readFile]. *)
Definition readFile_callback (file : json_config) : M unit :=
  match file with
  | ConfigThrows => throw (SyntaxError "Unexpected token in JSON")
  | Config config =>
      call (RouterSendState "show_robot" config);;
      call (RouterStartScan config)
  end.

(** *** Handlers of the socket.io server *)

(** The socket object behind a server-side handler. [sockets] holds the
    objects on which the [connection] handler has registered its handlers:
    for any other id there is no handler to run. *)
Definition with_socket (id : string) (k : socket → M unit) : M unit :=
  w ← get;
  match sockets w !! id with
  | Some c => k c
  | None => mret tt
  end.

(** [connection.handshake.query] *)
Definition handshake_query (c : socket) : M query :=
  match handshake c with
  | Some q => mret q
  | None => throw (TypeError "Cannot read property 'query' of undefined")
  end.

Definition is_childServer (q : query) : bool :=
  bool_decide (q_childServer q = Some "true").

(** [server.on('connection', (socket) => ...)], for a new socket object with
    the given [id] and [handshake]: first everything up to the registration
    of the socket's handlers, *)
Definition connection_register (id : string) (hs : option query) : M unit :=
  let connection := SrvSocket id in
  update (λ s, set_connectionSet (<[id := connection]> (connectionSet s)) s);;
  update (λ s, set_connections (connections s ++ [connection]) s);;
  call (SelfEmit "connection");;
  rendererConsole.info "Entry connected.";;
  q ← handshake_query (Socket hs None None);
  let roomId := q_roomId q in
  c ← (if is_childServer q then
         update (λ s, set_childServerList (<[id := true]> (childServerList s)) s);;
         mret (Socket hs None None)
       else
         call (SocketJoin connection roomId);;
         mret (Socket hs roomId None));
  s ← this;
  let childServerListCnt := keys_length (childServerList s) in
  (if bool_decide (childServerListCnt > 0) then
     call (IoEmit "mode" (PMode multi));;
     toggleServerMode multi
   else
     call (IoEmit "mode" (PMode single));;
     toggleServerMode single);;
  (* connection.on('matchTarget' | 'disconnect' | 'message' | 'close', ...) *)
  update_sockets (<[id := c]>).

(** then the last statement, [this.setState(this.state)]. *)
Definition server_on_connection (id : string) (hs : option query) : M unit :=
  connection_register id hs;;
  s ← this;
  setState (state s).

(** [connection.on('matchTarget', (data) => ...)] with [data.roomId]. *)
Definition connection_on_matchTarget (id : string) (data_roomId : jsv) : M unit :=
  with_socket id (λ c,
    q ← handshake_query c;
    when (is_childServer q && truthy data_roomId)
      (let roomIds0 := default [] (roomIds c) in
       let roomIds1 :=
         if bool_decide (indexOf data_roomId roomIds0 = -1)
         then roomIds0 ++ [data_roomId] else roomIds0 in
       update_sockets (<[id := Socket (handshake c) (roomId c) (Some roomIds1)]>);;
       update (λ s, set_clientTargetList
                      (obj_set (prop_key data_roomId) id (clientTargetList s)) s);;
       call (IoToEmit data_roomId "matched" (PMatched id)))).

(** [connection.on('disconnect', ...)] *)
Definition connection_on_disconnect (id : string) : M unit :=
  with_socket id (λ c,
    match handshake c with
    | Some q =>
        if is_childServer q then
          match roomIds c with
          | Some rs =>
              when (bool_decide (Z.of_nat (length rs) > 0))
                (forEach rs (λ roomId, call (IoToEmit roomId "matching" PNone)))
          | None => mret tt
          end;;
          update (λ s, set_connectionSet (delete id (connectionSet s)) s);;
          update (λ s, set_childServerList (delete id (childServerList s)) s);;
          s ← this;
          let childServerListCnt := keys_length (childServerList s) in
          when (bool_decide (childServerListCnt <= 0))
            (call (IoEmit "mode" (PMode single));;
             toggleServerMode single)
        else
          update (λ s, set_connectionSet (delete id (connectionSet s)) s)
    | None =>
        update (λ s, set_connectionSet (delete id (connectionSet s)) s)
    end).

(** The first statement of the message handler:
    [if (message.action === 'init') { const { name } = JSON.parse(message.data);
    this._requestHardware(name); }] *)
Definition message_init (m : message) : M unit :=
  if decide (action m = Some "init") then
    match data m with
    | ParseThrows => throw (SyntaxError "Unexpected token in JSON")
    | ParsedNull => throw (TypeError "Cannot destructure property 'name' of null")
    | ParsedName name => _ ← _requestHardware name; mret tt
    end
  else mret tt.

(** [server.to(t).emit(event, p)] for a value [t] that was looked up. *)
Definition io_to (t : looked_up) (event : string) (p : payload) : effect :=
  match t with
  | OwnValue v => IoToEmit (Some v) event p
  | Inherited k => IoToInheritedEmit k event p
  end.

(** [connection.on('message', (message, ack) => ...)]; [ack] tells whether
    the sender passed an acknowledgement callback. *)
Definition connection_on_message (id : string) (m : message) (ack : bool) : M unit :=
  with_socket id (λ c,
    call (ConsoleLog "socketServer receive : ");;
    message_init m;;
    s ← this;
    (if bool_decide (mode m = ModeConst single)
        || bool_decide (indexOf (roomId c) (masterRoomIds s) >= 0)
     then call (RouterHandleServerData (PMessage m))
     else
       q ← handshake_query c;
       if is_childServer q then
         match roomIds c with
         | Some rs =>
             when (bool_decide (Z.of_nat (length rs) > 0))
               (forEach rs (λ roomId, call (IoToEmit roomId "message" (PMessage m))))
         | None => mret tt
         end
       else
         match obj_get (clientTargetList s) (prop_key (roomId c)) with
         | Some target =>
             when (truthy_found target)
               (call (io_to target "message" (PMessage m)))
         | None => mret tt
         end);;
    when ack
      (call (Ack (match key m with Some k => AckKey k | None => AckTrue end)))).

(** [connection.on('close', ...)]: the server object itself is what is
    handed to [closeSingleConnection]. *)
Definition connection_on_close (id : string) : M unit :=
  with_socket id (λ _,
    rendererConsole.warn "Entry disconnected.";;
    call (SelfEmit "close");;
    closeSingleConnection ObjServer).

(** ** Events on the hub, and a world to start from *)

(** Connect and disconnect events as the socket.io server delivers them. *)
Inductive hub_event :=
| Connect (id : string) (q : query)
| Disconnect (id : string).

Definition handle (e : hub_event) : M unit :=
  match e with
  | Connect id q => server_on_connection id (Some q)
  | Disconnect id => connection_on_disconnect id
  end.

(** Handlers run one after the other; an exception ends one handler, not the
    ones after it. *)
Definition run_events (evs : list hub_event) (w : World) : World :=
  foldl (λ w e, run (handle e) w) w evs.

(** The connections alive after a sequence of events, by socket id. *)
Definition live_step (L : gmap string query) (e : hub_event) : gmap string query :=
  match e with
  | Connect id q => <[id := q]> L
  | Disconnect id => delete id L
  end.
Definition live_after (evs : list hub_event) : gmap string query :=
  foldl live_step ∅ evs.

Definition is_relay (kv : string * query) : Prop := is_childServer kv.2 = true.
#[global] Instance is_relay_dec kv : Decision (is_relay kv).
Proof. unfold is_relay. apply _. Defined.

Definition relay_count (L : gmap string query) : nat :=
  size (filter is_relay L).

(** The transport gives a new socket a fresh id, and reports the disconnect
    of live sockets only. *)
Definition event_ok (L : gmap string query) (e : hub_event) : Prop :=
  match e with
  | Connect id _ => L !! id = None
  | Disconnect id => is_Some (L !! id)
  end.
Fixpoint events_ok (L : gmap string query) (evs : list hub_event) : Prop :=
  match evs with
  | [] => True
  | e :: evs' => event_ok L e ∧ events_ok (live_step L e) evs'
  end.

(** A freshly constructed server in a process whose console and shared
    object are set up. *)
Definition initial_world : World :=
  mkWorld constructor ∅ ∅ 0 [] (Some tt) (Some ("127.0.0.1", "http:")) false [].

(** A hub that has room [r1] in [masterRoomIds] and holds the connection of
    one controller in that room. *)
Definition world_one_connection : World :=
  run (http_on_listening;;
       addRoomIdsOnSecondInstance (Some "r1");;
       server_on_connection "a" (Some (Query None (Some "r1")))) initial_world.

(** An [init] message whose [data] is not JSON, one whose [data] is the
    JSON text [null], and one whose [data] names a module. *)
Definition init_unparseable (md : mode_field) : message :=
  Message (Some "init") md ParseThrows None.
Definition init_null (md : mode_field) : message :=
  Message (Some "init") md ParsedNull None.
Definition init_arduino (md : mode_field) : message :=
  Message (Some "init") md (ParsedName (Some "arduino")) (Some "k1").

(** A process whose [open()] met a bind failure: it runs as child, linked to
    the hub through client socket 0. *)
Definition world_subordinate : World := run http_on_error initial_world.

(** A hub with room [r1] in [masterRoomIds] and one child server attached,
    which has claimed room [r2], and the controller of that room. *)
Definition world_relay_claimed : World :=
  run (http_on_listening;;
       addRoomIdsOnSecondInstance (Some "r1");;
       server_on_connection "b" (Some (Query (Some "true") None));;
       connection_on_matchTarget "b" (Some "r2");;
       server_on_connection "c" (Some (Query None (Some "r2")))) initial_world.

(** The announcements the disconnect handler makes for a child server. *)
Definition matching_announcements (c : socket) : list effect :=
  map (λ r, IoToEmit r "matching" PNone) (default [] (roomIds c)).

Definition twice (m : M unit) : M unit := m;; m.

(** A handler keeps a relation between the world it starts from and the
    world it leaves, whether it returns or throws. *)
Definition keeps {A} (R : World → World → Prop) (m : M A) : Prop :=
  ∀ w, R w (run m w).

(** [masterRoomIds] only gets longer. *)
Definition master_grows (w w' : World) : Prop :=
  masterRoomIds (srv w) `prefix_of` masterRoomIds (srv w').

(** The part of the world that the display mode depends on. *)
Definition same_registry (w w' : World) : Prop :=
  childServerList (srv w') = childServerList (srv w)
  ∧ currentServerMode (srv w') = currentServerMode (srv w)
  ∧ sockets w' = sockets w
  ∧ sender w' = sender w.

(** What links the server's registry to the connections that are alive: the
    keys of [childServerList] are the ids of the live child servers, every
    live connection has its socket object, with the handshake it connected
    with, and the console has its sender. *)
Definition registry_inv (w : World) (L : gmap string query) : Prop :=
  dom (childServerList (srv w)) = dom (filter is_relay L)
  ∧ (∀ id q, L !! id = Some q →
       ∃ c, sockets w !! id = Some c ∧ handshake c = Some q)
  ∧ is_Some (sender w).

(** The display mode the specification asks for. *)
Definition mode_of_count (k : nat) : server_mode :=
  if decide (0 < k)%nat then multi else single.

(** A short life of a hub: two child servers and a controller come and go. *)
Definition sample_events : list hub_event :=
  [Connect "a" (Query None (Some "r1"));
   Connect "b" (Query (Some "true") None);
   Connect "d" (Query (Some "true") None);
   Disconnect "b";
   Disconnect "a";
   Disconnect "d"].

(** The case in which [send] goes to the connections themselves: parent
    without child servers, or child. *)
Definition direct_mode (s : Server) : Prop :=
  (runningMode s = parent ∧ size (childServerList s) = 0%nat)
  ∨ runningMode s = child.

(** Effects that hand an application message to a destination. *)
Definition is_delivery (e : effect) : bool :=
  match e with
  | RouterHandleServerData _ => true
  | IoEmit ev _ | IoToEmit _ ev _ | IoToInheritedEmit _ ev _ | SocketEmit _ ev _ =>
      bool_decide (ev = "message")
  | _ => false
  end.

Definition is_ack (e : effect) : bool :=
  match e with Ack _ => true | _ => false end.

(** The acknowledgement the message handler owes: the message's [key], or
    [true], when the sender passed a callback. *)
Definition ack_effects (m : message) (ack : bool) : list effect :=
  if ack then [Ack (match key m with Some k => AckKey k | None => AckTrue end)]
  else [].

Definition is_matching (e : effect) : bool :=
  match e with
  | IoToEmit _ ev _ => bool_decide (ev = "matching")
  | _ => false
  end.

Definition is_commit (e : effect) : bool :=
  match e with
  | RouterSendState _ _ | RouterStartScan _ => true
  | _ => false
  end.

(** The state codes of the StatePacket as the specification lists them. *)
Definition state_code (name : string) : option Z :=
  if decide (name = "connecting") then Some 0x01
  else if decide (name = "connected") then Some 0x02
  else if decide (name = "lost") then Some 0x03
  else if decide (name = "disconnected") then Some 0x04
  else None.

(** Every operation of the server: its methods and the handlers it
    registers. *)
Inductive operation :=
| OpAddRoomIdsOnSecondInstance (roomId : jsv)
| OpToggleServerMode (m : server_mode)
| OpOpen
| OpHttpError
| OpHttpListening
| OpClientConnect (n : nat)
| OpClientMessage (n : nat) (p : payload)
| OpClientMode (n : nat) (data : payload)
| OpClientReconnectFailed (n : nat)
| OpClientDisconnect (n : nat)
| OpConnection (id : string) (hs : option query)
| OpMatchTarget (id : string) (data_roomId : jsv)
| OpDisconnect (id : string)
| OpMessage (id : string) (m : message) (ack : bool)
| OpClose (id : string)
| OpRequestHardware (moduleName : jsv)
| OpResponse (moduleName : jsv) (statusCode : Z)
| OpResponseError
| OpZipDone (moduleName : jsv)
| OpReadFile (file : json_config)
| OpCloseSingleConnection (connection : obj)
| OpSend (p : payload)
| OpSetState (st : jsv)
| OpDisconnectHardware
| OpServerClose.

Definition ignore {A} (m : M A) : M unit := _ ← m; mret tt.

Definition exec (o : operation) : M unit :=
  match o with
  | OpAddRoomIdsOnSecondInstance r => addRoomIdsOnSecondInstance r
  | OpToggleServerMode m => toggleServerMode m
  | OpOpen => open
  | OpHttpError => http_on_error
  | OpHttpListening => http_on_listening
  | OpClientConnect n => client_on_connect n
  | OpClientMessage n p => client_on_message n p
  | OpClientMode n d => client_on_mode n d
  | OpClientReconnectFailed n => client_on_reconnect_failed n
  | OpClientDisconnect n => client_on_disconnect n
  | OpConnection id hs => server_on_connection id hs
  | OpMatchTarget id r => connection_on_matchTarget id r
  | OpDisconnect id => connection_on_disconnect id
  | OpMessage id m ack => connection_on_message id m ack
  | OpClose id => connection_on_close id
  | OpRequestHardware n => ignore (_requestHardware n)
  | OpResponse n c => ignore (request_on_response n c)
  | OpResponseError => ignore response_on_error
  | OpZipDone n => ignore (zipStream_on_done n)
  | OpReadFile f => readFile_callback f
  | OpCloseSingleConnection c => closeSingleConnection c
  | OpSend p => send p
  | OpSetState st => setState st
  | OpDisconnectHardware => disconnectHardware
  | OpServerClose => close
  end.

(** ** Notions for the properties of the whole class *)

(** A relation between the server object before and after a handler. *)
Definition srv_related (Q : Server → Server → Prop) (w w' : World) : Prop :=
  Q (srv w) (srv w').

(** A property of the server object that a handler does not break. *)
Definition holds_after (P : Server → Prop) (s s' : Server) : Prop := P s → P s'.

(** A state packet: the constant framing, then 0 (never written) or one of
    the four state codes. *)
Definition valid_packet (s : Server) : Prop :=
  ∃ x, packet s = [0x01; 0x00; 0x00; x] ∧ 0 ≤ x ≤ 4.

(** The two values [runningMode] is ever given. *)
Definition role_known (s : Server) : Prop :=
  runningMode s = parent ∨ runningMode s = child.

Definition connections_grow (s s' : Server) : Prop :=
  connections s `prefix_of` connections s'.

Definition targets_grow (s s' : Server) : Prop :=
  dom (clientTargetList s) ⊆ dom (clientTargetList s').

Definition unchanged (s s' : Server) : Prop := s' = s.

(** The operations that only read the server object. *)
Definition read_only (o : operation) : bool :=
  match o with
  | OpOpen | OpClientMessage _ _ | OpClientMode _ _ | OpMessage _ _ _
  | OpClose _ | OpRequestHardware _ | OpResponse _ _ | OpResponseError
  | OpZipDone _ | OpReadFile _ | OpCloseSingleConnection _ | OpSend _
  | OpDisconnectHardware => true
  | _ => false
  end.

(** What the guarded [push] of the room-id loops computes: [r] is appended
    unless it is there already, and the loops skip falsy ids. *)
Definition add_room (m : list jsv) (r : jsv) : list jsv :=
  if bool_decide (indexOf r m = -1) then m ++ [r] else m.
Definition merge_rooms (m rs : list jsv) : list jsv :=
  foldl (λ m r, if truthy r then add_room m r else m) m rs.

Definition rooms_same (s s' : Server) : Prop := masterRoomIds s' = masterRoomIds s.

(** A child whose router knows two rooms (one of them twice) and an entry
    without id. *)
Definition world_child_rooms : World :=
  mkWorld (srv world_subordinate) ∅ ∅ 1 [Some "r1"; None; Some "r2"; Some "r1"]
    (Some tt) (Some ("127.0.0.1", "http:")) false [].

(** Where the message handler sends a message this process does not answer
    for: a child server's message goes to the rooms it has claimed, a
    controller's message to the target of its room, if there is one. *)
Definition forward_destinations (s : Server) (c : socket) (q : query) (m : message)
    : list effect :=
  if is_childServer q then
    map (λ r, IoToEmit r "message" (PMessage m)) (default [] (roomIds c))
  else
    match obj_get (clientTargetList s) (prop_key (roomId c)) with
    | Some t => if truthy_found t then [io_to t "message" (PMessage m)] else []
    | None => []
    end.

(** A hub with child server [b] attached (it has claimed nothing) and a
    controller of room [r7]. *)
Definition world_unclaimed_room : World :=
  run (http_on_listening;;
       server_on_connection "b" (Some (Query (Some "true") None));;
       server_on_connection "a" (Some (Query None (Some "r7")))) initial_world.

(** A hub with the controller of a room called [constructor], which no
    child server has claimed. *)
Definition world_inherited_room : World :=
  run (http_on_listening;;
       server_on_connection "a" (Some (Query None (Some "constructor"))))
    initial_world.

(** A hub in a process where [rendererConsole.initialize] has not run. *)
Definition world_silent_console : World :=
  mkWorld (srv (run http_on_listening initial_world)) ∅ ∅ 0 [] None
    (Some ("127.0.0.1", "http:")) false [].

Definition conns_same (s s' : Server) : Prop := connections s' = connections s.

Definition registry_same (s s' : Server) : Prop :=
  connections s' = connections s ∧ connectionSet s' = connectionSet s.

(** The sockets that connected during a sequence of events, in order. *)
Definition connected_sockets (evs : list hub_event) : list sockref :=
  omap (λ e, match e with
             | Connect id _ => Some (SrvSocket id)
             | Disconnect _ => None
             end) evs.

(** The events of a module request that goes well, in the order in which
    they happen: the request, a response with status 200, the unpacker's
    "done", the callback of the file read. *)
Definition fetch_events (moduleName : jsv) (file : json_config) : M unit :=
  _ ← _requestHardware moduleName;
  _ ← request_on_response moduleName 200;
  _ ← zipStream_on_done moduleName;
  readFile_callback file.

(** * Properties *)

(** ** Reasoning about handlers *)

Lemma bind_run {A B} (m : M A) (k : A → M B) (w : World) :
  (m ≫= k) w =
  match m w with
  | (Ok a, w') => k a w'
  | (Throw e, w') => (Throw e, w')
  end.
Proof. reflexivity. Qed.

Ltac msimpl := repeat (rewrite bind_run; simpl).

Lemma indexOf_from_lower {A} `{EqDecision A} (x : A) l i :
  indexOf_from x l i = -1 ∨ i ≤ indexOf_from x l i.
Proof.
  revert i. induction l as [|y l IH]; intros i; simpl; [by left|].
  destruct (decide (y = x)); [right; lia|].
  destruct (IH (i + 1)); [by left | right; lia].
Qed.

Lemma indexOf_from_elem {A} `{EqDecision A} (x : A) l i :
  0 ≤ i → (indexOf_from x l i > -1 ↔ x ∈ l).
Proof.
  revert i. induction l as [|y l IH]; intros i Hi; simpl.
  - split; [lia | by intros ?%elem_of_nil].
  - destruct (decide (y = x)) as [->|Hne].
    + split; [intros _; left | lia].
    + rewrite IH by lia. rewrite elem_of_cons.
      split; [by right | by intros [?|?]].
Qed.

Lemma indexOf_elem {A} `{EqDecision A} (x : A) l : indexOf x l > -1 ↔ x ∈ l.
Proof. by apply indexOf_from_elem. Qed.

Lemma indexOf_ge_elem {A} `{EqDecision A} (x : A) l : indexOf x l >= 0 ↔ x ∈ l.
Proof. rewrite <- indexOf_elem. lia. Qed.

Lemma indexOf_not_elem {A} `{EqDecision A} (x : A) l : indexOf x l = -1 ↔ x ∉ l.
Proof.
  rewrite <- indexOf_elem. unfold indexOf.
  destruct (indexOf_from_lower x l 0); lia.
Qed.

(** A loop that only makes calls appends them to the trace. *)
Lemma forEach_call {A} (l : list A) (f : A → effect) (w : World) :
  forEach l (λ x, call (f x)) w = (Ok tt, with_trace (λ t, t ++ map f l) w).
Proof.
  revert w. induction l as [|x l IH]; intros w; simpl.
  - destruct w; unfold mret, M_ret, with_trace; simpl. by rewrite app_nil_r.
  - rewrite bind_run. unfold call at 1. rewrite IH.
    destruct w; unfold with_trace; simpl. by rewrite <- app_assoc.
Qed.

Lemma emitted_app {A} (m : M A) (w : World) (l : list effect) :
  trace (run m w) = trace w ++ l → emitted m w = l.
Proof. unfold emitted. intros ->. by rewrite drop_app_length. Qed.

(** ** [closeSingleConnection] *)

(** C10. For a connection [c] in the connections list,
    [closeSingleConnection(c)] calls [c.close()] and leaves the server
    object, the list included, as it was: [slice] builds a list that is
    thrown away. For a connection that is not in the list, and for the
    server object the [close] handler passes, the call does nothing. *)
Theorem closeSingleConnection_keeps_list (c : sockref) (w : World) :
  (c ∈ connections (srv w) →
     closeSingleConnection (ObjSocket c) w
     = (Ok tt, with_trace (λ t, t ++ [SocketClose c]) w)
     ∧ connections (srv (run (closeSingleConnection (ObjSocket c)) w))
       = connections (srv w)
     ∧ c ∈ connections (srv (run (closeSingleConnection (ObjSocket c)) w)))
  ∧ (c ∉ connections (srv w) →
     closeSingleConnection (ObjSocket c) w = (Ok tt, w))
  ∧ closeSingleConnection ObjServer w = (Ok tt, w).
Proof.
  split; [|split].
  - intros Hin.
    assert (closeSingleConnection (ObjSocket c) w
            = (Ok tt, with_trace (λ t, t ++ [SocketClose c]) w)) as Heq.
    { unfold closeSingleConnection. rewrite bind_run. simpl.
      rewrite bool_decide_eq_true_2 by (by apply indexOf_elem). reflexivity. }
    unfold run. rewrite Heq. by destruct w.
  - intros Hnot. unfold closeSingleConnection. rewrite bind_run. simpl.
    rewrite bool_decide_eq_false_2; [reflexivity|].
    by rewrite indexOf_elem.
  - reflexivity.
Qed.

Lemma closeSingleConnection_keeps_list_witness :
  connections
    (srv (run (closeSingleConnection (ObjSocket (SrvSocket "a"))) world_one_connection))
  = [SrvSocket "a"]
  ∧ closeSingleConnection (ObjSocket (SrvSocket "c")) world_one_connection
    = (Ok tt, world_one_connection).
Proof.
  destruct (closeSingleConnection_keeps_list (SrvSocket "a") world_one_connection)
    as [Hin _].
  destruct (closeSingleConnection_keeps_list (SrvSocket "c") world_one_connection)
    as (_ & Hout & _).
  split.
  - destruct Hin as (_ & Hconn & _); [|exact Hconn].
    apply indexOf_elem. vm_compute. reflexivity.
  - apply Hout. apply indexOf_not_elem. vm_compute. reflexivity.
Defined.

(** ** [send] *)

Lemma send_direct (p : payload) (w : World) :
  direct_mode (srv w) →
  send p w
  = (Ok tt, with_trace
              (λ t, t ++ map (λ c, SocketEmit c "message" p) (connections (srv w))) w).
Proof.
  intros Hd. unfold send. rewrite bind_run. simpl.
  assert (bool_decide (runningMode (srv w) = parent)
          && bool_decide (keys_length (childServerList (srv w)) = 0)
          || bool_decide (runningMode (srv w) = child) = true) as ->.
  { unfold keys_length. destruct Hd as [[-> Hz]| ->].
    - rewrite Hz. reflexivity.
    - reflexivity. }
  unfold when. case_bool_decide as Hlen.
  - apply forEach_call.
  - destruct (connections (srv w)); [|simpl in Hlen; lia].
    destruct w; unfold mret, M_ret, with_trace; simpl. by rewrite app_nil_r.
Qed.

Lemma forEach_to_rooms (l : list jsv) (p : payload) (w : World) :
  is_Some (socketServer (srv w)) →
  forEach l (λ r, s ← this;
                  match socketServer s with
                  | Some _ => call (IoToEmit r "message" p)
                  | None => throw (TypeError "Cannot read property 'to' of undefined")
                  end) w
  = (Ok tt, with_trace (λ t, t ++ map (λ r, IoToEmit r "message" p) l) w).
Proof.
  revert w. induction l as [|r l IH]; intros w [u Hu]; simpl.
  - destruct w; unfold mret, M_ret, with_trace; simpl. by rewrite app_nil_r.
  - rewrite bind_run. rewrite bind_run. simpl. rewrite Hu. simpl.
    rewrite IH by (simpl; eauto).
    destruct w; unfold with_trace; simpl. by rewrite <- app_assoc.
Qed.

Lemma send_rooms (p : payload) (w : World) :
  ¬ direct_mode (srv w) →
  is_Some (socketServer (srv w)) →
  send p w
  = (Ok tt, with_trace
              (λ t, t ++ map (λ r, IoToEmit r "message" p) (masterRoomIds (srv w))) w).
Proof.
  intros Hd Hs. unfold send. rewrite bind_run. simpl.
  assert (bool_decide (runningMode (srv w) = parent)
          && bool_decide (keys_length (childServerList (srv w)) = 0)
          || bool_decide (runningMode (srv w) = child) = false) as ->.
  { apply not_true_is_false. intros H. apply Hd. unfold direct_mode.
    apply orb_true_iff in H as [H|H].
    - apply andb_true_iff in H as [H1 H2].
      apply bool_decide_eq_true in H1, H2. unfold keys_length in H2.
      left. split; [done | lia].
    - apply bool_decide_eq_true in H. by right. }
  unfold when. case_bool_decide as Hlen.
  - by apply forEach_to_rooms.
  - destruct (masterRoomIds (srv w)); [|simpl in Hlen; lia].
    destruct w; unfold mret, M_ret, with_trace; simpl. by rewrite app_nil_r.
Qed.

(** C5. [send(payload)] hands the payload to every connection of the
    connections list when the server runs as parent without any child server
    attached, or as child; otherwise, with the socket.io server in place, it
    emits the payload to every room of [masterRoomIds] through that server.
    Nothing else is emitted and the server object is left as it was. *)
Theorem send_destinations (p : payload) (w : World) :
  (direct_mode (srv w) →
     send p w
     = (Ok tt, with_trace
          (λ t, t ++ map (λ c, SocketEmit c "message" p) (connections (srv w))) w))
  ∧ (¬ direct_mode (srv w) → is_Some (socketServer (srv w)) →
     send p w
     = (Ok tt, with_trace
          (λ t, t ++ map (λ r, IoToEmit r "message" p) (masterRoomIds (srv w))) w)).
Proof. split; [apply send_direct | apply send_rooms]. Qed.

Lemma send_destinations_witness :
  send PDisconnectHardware world_one_connection
  = (Ok tt, with_trace
              (λ t, t ++ [SocketEmit (SrvSocket "a") "message" PDisconnectHardware])
              world_one_connection)
  ∧ send PDisconnectHardware world_relay_claimed
    = (Ok tt, with_trace
                (λ t, t ++ [IoToEmit (Some "r1") "message" PDisconnectHardware])
                world_relay_claimed).
Proof.
  destruct (send_destinations PDisconnectHardware world_one_connection)
    as [Hdirect _].
  destruct (send_destinations PDisconnectHardware world_relay_claimed)
    as [_ Hrooms].
  split.
  - apply Hdirect. left. split; vm_compute; reflexivity.
  - apply Hrooms.
    + intros [[_ H]|H]; vm_compute in H; discriminate H.
    + exists tt. vm_compute. reflexivity.
Defined.

(** ** [setState] *)

Lemma state_code_cases (name : string) (code : Z) :
  state_code name = Some code →
  (name = "connecting" ∧ code = 0x01) ∨ (name = "connected" ∧ code = 0x02)
  ∨ (name = "lost" ∧ code = 0x03) ∨ (name = "disconnected" ∧ code = 0x04).
Proof.
  unfold state_code. repeat case_decide; intros; simplify_eq; auto.
Qed.

(** C7, as stated, fails: on a server without connections
    [setState("connected")] does not write the state code into the packet,
    which stays [0x01,0x00,0x00,0x00]. *)
Lemma setState_without_connection_keeps_packet :
  connections (srv initial_world) = []
  ∧ packet (srv (run (setState (Some "connected")) initial_world))
    = [0x01; 0x00; 0x00; 0x00]
  ∧ packet (srv (run (setState (Some "connected")) initial_world))
    ≠ [0x01; 0x00; 0x00; 0x02].
Proof. repeat split. intros H. vm_compute in H. discriminate H. Qed.

(** C7, amended. For a state name among connecting, connected, lost and
    disconnected and a packet [0x01,0x00,0x00,x]: when the connections list
    is not empty, [setState] records the name, writes the state code into
    the 4th byte (the first three stay [0x01,0x00,0x00]) and calls [send]
    with that packet as [data]; when the list is empty it records the name
    only, the packet is not written and nothing is sent. *)
Theorem setState_packet (name : string) (code x : Z) (w : World) :
  state_code name = Some code →
  packet (srv w) = [0x01; 0x00; 0x00; x] →
  (connections (srv w) ≠ [] →
     setState (Some name) w
     = send (PData [0x01; 0x00; 0x00; code])
         (with_srv (λ s, set_packet [0x01; 0x00; 0x00; code]
                           (set_state (Some name) s)) w))
  ∧ (connections (srv w) = [] →
     setState (Some name) w = (Ok tt, with_srv (set_state (Some name)) w)).
Proof.
  intros Hcode Hpkt. destruct w as [s ? ? ? ? ? ? ? ?].
  destruct s as [pkt conns ? ? ? ? ? ? ? ? ? ? ? ?].
  simpl in Hpkt. subst. split; simpl; intros Hconn.
  - unfold setState. msimpl.
    rewrite bool_decide_eq_true_2
      by (destruct conns; [done | simpl; lia]).
    unfold when.
    apply state_code_cases in Hcode
      as [[-> ->]|[[-> ->]|[[-> ->]|[-> ->]]]];
      simpl; unfold send_packet; msimpl; reflexivity.
  - unfold setState. msimpl. rewrite Hconn. reflexivity.
Qed.

Lemma setState_packet_witness :
  setState (Some "lost") world_one_connection
  = send (PData [0x01; 0x00; 0x00; 0x03])
      (with_srv (λ s, set_packet [0x01; 0x00; 0x00; 0x03]
                        (set_state (Some "lost") s)) world_one_connection)
  ∧ setState (Some "connected") initial_world
    = (Ok tt, with_srv (set_state (Some "connected")) initial_world).
Proof.
  split.
  - apply (setState_packet "lost" 0x03 0x00 world_one_connection);
      [reflexivity | reflexivity | discriminate].
  - apply (setState_packet "connected" 0x02 0x00 initial_world); reflexivity.
Defined.

(** ** [_requestHardware] *)

(** C9. [_requestHardware(moduleName)] rejects at once, without a request
    and without touching anything, when [moduleName] is empty; otherwise
    (with [global.sharedObject] in place) it issues the GET request for the
    module's package, [/api/hardware/<moduleName>/module] on
    [localhost:4000], and stays pending. A response whose status is not 200
    rejects, again without any effect. Neither failure hands a module
    configuration to the router. *)
Theorem requestHardware_failures (moduleName : jsv) (statusCode : Z) (w : World) :
  (truthy moduleName = false →
     _requestHardware moduleName w = (Ok Rejected, w))
  ∧ (truthy moduleName = true → is_Some (sharedObject w) →
     _requestHardware moduleName w
     = (Ok Pending,
        with_trace
          (λ t, t ++ [ConsoleLog
                        (String.append "/api/hardware/"
                           (String.append (prop_key moduleName) "/module"));
                      NetRequest "GET" "localhost:4000" "http:"
                        (String.append "/api/hardware/"
                           (String.append (prop_key moduleName) "/module"))])
          w))
  ∧ (statusCode ≠ 200 →
     request_on_response moduleName statusCode w = (Ok Rejected, w))
  ∧ (truthy moduleName = false →
     filter is_commit (emitted (_requestHardware moduleName) w) = [])
  ∧ (statusCode ≠ 200 →
     filter is_commit (emitted (request_on_response moduleName statusCode) w) = []).
Proof.
  assert (∀ A (r : result A), emitted (λ w, (r, w)) w = []) as Hnone.
  { intros. unfold emitted, run. simpl. apply drop_all. }
  assert (truthy moduleName = false →
          _requestHardware moduleName = λ w, (Ok Rejected, w)) as H1.
  { intros Ht. unfold _requestHardware. rewrite Ht. reflexivity. }
  assert (statusCode ≠ 200 →
          request_on_response moduleName statusCode = λ w, (Ok Rejected, w)) as H2.
  { intros Hs. unfold request_on_response. by rewrite decide_False. }
  repeat split.
  - intros Ht. by rewrite H1.
  - intros Ht [so Hso]. unfold _requestHardware, module_path. rewrite Ht. simpl.
    destruct w; simpl in Hso; subst. msimpl.
    unfold with_trace; simpl. by rewrite <- app_assoc.
  - intros Hs. by rewrite H2.
  - intros Ht. rewrite H1 by done. by rewrite Hnone.
  - intros Hs. rewrite H2 by done. by rewrite Hnone.
Qed.

Lemma requestHardware_failures_witness :
  _requestHardware (Some "") initial_world = (Ok Rejected, initial_world)
  ∧ outcome (_requestHardware (Some "arduino")) initial_world = Ok Pending
  ∧ emitted (_requestHardware (Some "arduino")) initial_world
    = [ConsoleLog "/api/hardware/arduino/module";
       NetRequest "GET" "localhost:4000" "http:" "/api/hardware/arduino/module"]
  ∧ request_on_response (Some "arduino") 404 initial_world
    = (Ok Rejected, initial_world).
Proof.
  destruct (requestHardware_failures (Some "") 404 initial_world)
    as (Hempty & _ & _).
  destruct (requestHardware_failures (Some "arduino") 404 initial_world)
    as (_ & Hget & Hstatus & _).
  assert (is_Some (sharedObject initial_world)) as Hso by by eexists.
  specialize (Hget eq_refl Hso).
  split; [|split; [|split]].
  - apply Hempty. reflexivity.
  - unfold outcome. rewrite Hget. reflexivity.
  - unfold emitted, run. rewrite Hget. reflexivity.
  - apply Hstatus. lia.
Defined.

(** ** The uplink of a child *)

(** The [reconnect_failed] handler: close the link, mode single, clear the
    handle, open again. *)
Lemma reconnect_failed_demotes (n : nat) (w : World) :
  client_on_reconnect_failed n w
  = (Ok tt,
     with_trace (λ t, t ++ [SocketClose (CliSocket n);
                            RouterNotifyServerMode single; HttpListen PORT])
       (with_srv (λ s, set_socketClient HNull (set_currentServerMode single s)) w)).
Proof.
  unfold client_on_reconnect_failed, toggleServerMode, open, _getHttpServer.
  destruct w as [s ? ? ? ? ? ? cert ?]. msimpl.
  destruct cert; msimpl; unfold call, with_trace, with_srv; simpl;
    by rewrite <- !app_assoc.
Qed.

(** C3: the [disconnect] handler of the uplink closes the link, clears the
    handle and opens again, but it leaves [currentServerMode] as it is and
    does not notify the router: a child that loses its hub this way still
    shows mode multi afterwards, also once its own [open()] has succeeded
    and it runs as parent without any child server. *)
Theorem uplink_disconnect_keeps_mode (n : nat) (w : World) :
  client_on_disconnect n w
  = (Ok tt,
     with_trace (λ t, t ++ [SocketClose (CliSocket n); HttpListen PORT])
       (with_srv (set_socketClient HNull) w))
  ∧ currentServerMode (srv (run (client_on_disconnect n) w))
    = currentServerMode (srv w)
  ∧ runningMode (srv world_subordinate) = child
  ∧ socketClient (srv world_subordinate) = HSocket 0
  ∧ currentServerMode (srv (run (client_on_disconnect 0) world_subordinate))
    = multi
  ∧ (let hub := run (client_on_disconnect 0;; http_on_listening) world_subordinate in
     runningMode (srv hub) = parent
     ∧ childServerList (srv hub) = ∅
     ∧ currentServerMode (srv hub) = multi).
Proof.
  assert (client_on_disconnect n w
          = (Ok tt,
             with_trace (λ t, t ++ [SocketClose (CliSocket n); HttpListen PORT])
               (with_srv (set_socketClient HNull) w))) as Heq.
  { unfold client_on_disconnect, open, _getHttpServer.
    destruct w as [s ? ? ? ? ? ? cert ?]. msimpl.
    destruct cert; msimpl; unfold call, with_trace, with_srv; simpl;
      by rewrite <- !app_assoc. }
  split; [exact Heq|]. split; [|by vm_compute].
  unfold run. rewrite Heq. by destruct w.
Qed.

(** ** The disconnect handler of the hub *)

Lemma disconnect_unknown (id : string) (w : World) :
  sockets w !! id = None → connection_on_disconnect id w = (Ok tt, w).
Proof.
  intros Hs. unfold connection_on_disconnect, with_socket. msimpl.
  by rewrite Hs.
Qed.

Lemma disconnect_controller (id : string) (c : socket) (w : World) :
  sockets w !! id = Some c →
  (∀ q, handshake c = Some q → is_childServer q = false) →
  connection_on_disconnect id w
  = (Ok tt, with_srv (λ s, set_connectionSet (delete id (connectionSet s)) s) w).
Proof.
  intros Hs Hq. unfold connection_on_disconnect, with_socket. msimpl.
  rewrite Hs. destruct (handshake c) as [q|]; [|reflexivity].
  by rewrite (Hq q).
Qed.

Lemma disconnect_relay (id : string) (c : socket) (q : query) (w : World) :
  sockets w !! id = Some c →
  handshake c = Some q →
  is_childServer q = true →
  connection_on_disconnect id w
  = (Ok tt,
     let s1 := set_childServerList (delete id (childServerList (srv w)))
                 (set_connectionSet (delete id (connectionSet (srv w))) (srv w)) in
     if bool_decide (keys_length (delete id (childServerList (srv w))) <= 0)
     then with_trace (λ t, t ++ matching_announcements c
                             ++ [IoEmit "mode" (PMode single);
                                 RouterNotifyServerMode single])
            (with_srv (λ _, set_currentServerMode single s1) w)
     else with_trace (λ t, t ++ matching_announcements c)
            (with_srv (λ _, s1) w)).
Proof.
  intros Hs Hh Hq. unfold connection_on_disconnect, with_socket. msimpl.
  rewrite Hs, Hh, Hq. rewrite bind_run.
  assert (match roomIds c with
          | Some rs =>
              when (bool_decide (Z.of_nat (length rs) > 0))
                (forEach rs (λ roomId, call (IoToEmit roomId "matching" PNone)))
          | None => mret tt
          end w = (Ok tt, with_trace (λ t, t ++ matching_announcements c) w)) as ->.
  { unfold matching_announcements. destruct (roomIds c) as [rs|]; simpl.
    - unfold when. case_bool_decide as Hlen; [apply forEach_call|].
      destruct rs; [|simpl in Hlen; lia].
      destruct w; unfold mret, M_ret, with_trace; simpl. by rewrite app_nil_r.
    - destruct w; unfold mret, M_ret, with_trace; simpl. by rewrite app_nil_r. }
  destruct w as [s ? ? ? ? ? ? ? ?]. msimpl. unfold when.
  case_bool_decide; msimpl; unfold toggleServerMode; msimpl;
    unfold call, mret, M_ret, with_trace, with_srv; simpl;
    by rewrite <- ?app_assoc.
Qed.

(** C6, as stated, fails: a child server that has claimed room [r2] and
    whose disconnect handler runs twice has "matching" announced to [r2]
    twice. *)
Lemma disconnect_twice_announces_twice :
  filter is_matching (emitted (connection_on_disconnect "b") world_relay_claimed)
  = [IoToEmit (Some "r2") "matching" PNone]
  ∧ filter is_matching
      (emitted (twice (connection_on_disconnect "b")) world_relay_claimed)
    = [IoToEmit (Some "r2") "matching" PNone; IoToEmit (Some "r2") "matching" PNone]
  ∧ filter is_matching
      (emitted (twice (connection_on_disconnect "b")) world_relay_claimed)
    ≠ filter is_matching
        (emitted (connection_on_disconnect "b") world_relay_claimed).
Proof.
  assert (filter is_matching
            (emitted (connection_on_disconnect "b") world_relay_claimed)
          = [IoToEmit (Some "r2") "matching" PNone]) as H1 by (by vm_compute).
  assert (filter is_matching
            (emitted (twice (connection_on_disconnect "b")) world_relay_claimed)
          = [IoToEmit (Some "r2") "matching" PNone;
             IoToEmit (Some "r2") "matching" PNone]) as H2 by (by vm_compute).
  split; [exact H1 | split; [exact H2 |]]. rewrite H1, H2. discriminate.
Qed.

(** C6, amended. Running the disconnect handler a second time for the same
    connection raises no error and leaves the server object and the socket
    objects exactly as the first run left them; but the second run makes the
    same calls as the first: "matching" is announced again to every room of
    the connection's [roomIds] (and mode single again when no child server
    is left). *)
Theorem disconnect_twice (id : string) (w : World) :
  let w1 := run (connection_on_disconnect id) w in
  let w2 := run (connection_on_disconnect id) w1 in
  outcome (connection_on_disconnect id) w = Ok tt
  ∧ outcome (connection_on_disconnect id) w1 = Ok tt
  ∧ srv w2 = srv w1
  ∧ sockets w2 = sockets w1
  ∧ emitted (connection_on_disconnect id) w1
    = emitted (connection_on_disconnect id) w.
Proof.
  destruct (sockets w !! id) as [c|] eqn:Hs.
  2:{ simpl. unfold emitted, run, outcome.
      rewrite (disconnect_unknown id w Hs). simpl.
      by rewrite (disconnect_unknown id w Hs). }
  assert (∀ f, sockets (with_srv f w) !! id = Some c) as Hs'
    by (intros f; by destruct w).
  destruct (handshake c) as [q|] eqn:Hh; [destruct (is_childServer q) eqn:Hq|].
  - simpl. unfold emitted, run, outcome.
    rewrite (disconnect_relay id c q w Hs Hh Hq). simpl.
    destruct w as [s ? ? ? ? ? ? ? tr]; destruct s; simpl in *.
    case_bool_decide as Hcnt; simpl.
    + erewrite (disconnect_relay id c q) by (simpl; eassumption). simpl.
      rewrite !delete_delete_eq. rewrite bool_decide_eq_true_2 by done. simpl.
      rewrite !drop_app_length. repeat split.
    + erewrite (disconnect_relay id c q) by (simpl; eassumption). simpl.
      rewrite !delete_delete_eq. rewrite bool_decide_eq_false_2 by done. simpl.
      rewrite !drop_app_length. repeat split.
  - assert (∀ q', handshake c = Some q' → is_childServer q' = false) as Hq'
      by (intros ?; congruence).
    simpl. unfold emitted, run, outcome.
    rewrite (disconnect_controller id c w Hs Hq'). simpl.
    rewrite (disconnect_controller id c _ (Hs' _) Hq'). simpl.
    destruct w as [s ? ? ? ? ? ? ? ?]; destruct s; simpl.
    unfold set_connectionSet; simpl. rewrite delete_delete_eq.
    repeat split.
  - assert (∀ q, handshake c = Some q → is_childServer q = false) as Hq
      by (intros ?; congruence).
    simpl. unfold emitted, run, outcome.
    rewrite (disconnect_controller id c w Hs Hq). simpl.
    rewrite (disconnect_controller id c _ (Hs' _) Hq). simpl.
    destruct w as [s ? ? ? ? ? ? ? ?]; destruct s; simpl.
    unfold set_connectionSet; simpl. rewrite delete_delete_eq.
    repeat split.
Qed.

(** ** The message handler of the hub *)

Lemma with_trace_nil (w : World) : w = with_trace (λ t, t ++ []) w.
Proof. destruct w; unfold with_trace; simpl. by rewrite app_nil_r. Qed.

Lemma message_init_ok (m : message) (w : World) :
  (action m = Some "init" → ∃ name, data m = ParsedName name) →
  ∃ l, message_init m w = (Ok tt, with_trace (λ t, t ++ l) w)
       ∧ filter is_delivery l = [] ∧ filter is_ack l = [].
Proof.
  intros Hinit. unfold message_init.
  destruct (decide (action m = Some "init")) as [Ha|Ha].
  - destruct (Hinit Ha) as [name ->].
    unfold _requestHardware. destruct (truthy name); simpl.
    + destruct w as [s ? ? ? ? ? so ? tr]. msimpl. destruct so; msimpl.
      * eexists [_; _]. unfold with_trace; simpl.
        rewrite <- app_assoc. repeat split; reflexivity.
      * eexists [_]. unfold with_trace; simpl. repeat split; reflexivity.
    + exists []. split; [|done]. msimpl. unfold mret, M_ret.
      by rewrite <- with_trace_nil.
  - exists []. split; [|done]. unfold mret, M_ret. by rewrite <- with_trace_nil.
Qed.

(** C1, as stated, fails: an [init] message whose [data] is not JSON makes
    [JSON.parse] throw before the routing test, so the handler ends without
    handing the message to the router, although its mode is single and its
    room is in [masterRoomIds]. The same happens when [data] is the JSON
    text [null]: it parses, and the destructuring of [null] throws. *)
Lemma init_unparseable_not_dispatched :
  mode (init_unparseable (ModeConst single)) = ModeConst single
  ∧ sockets world_one_connection !! "a"
    = Some (Socket (Some (Query None (Some "r1"))) (Some "r1") None)
  ∧ Some "r1" ∈ masterRoomIds (srv world_one_connection)
  ∧ outcome (connection_on_message "a" (init_unparseable (ModeConst single)) true)
      world_one_connection
    = Throw (SyntaxError "Unexpected token in JSON")
  ∧ filter is_delivery
      (emitted (connection_on_message "a" (init_unparseable (ModeConst single)) true)
         world_one_connection)
    = []
  ∧ outcome (connection_on_message "a" (init_null (ModeConst single)) true)
      world_one_connection
    = Throw (TypeError "Cannot destructure property 'name' of null")
  ∧ filter is_delivery
      (emitted (connection_on_message "a" (init_null (ModeConst single)) true)
         world_one_connection)
    = [].
Proof.
  split; [reflexivity|]. split; [by vm_compute|].
  split; [|repeat split; by vm_compute].
  apply indexOf_elem. by vm_compute.
Qed.

(** C1, amended. For every message in which the [init] statement, if it
    runs (action [init]), does not throw, that is, whose [data] is JSON for
    a value other than [null]: if the mode of the message is single, or the
    [roomId] of the connection it came in on is in [masterRoomIds], the
    handler returns normally and hands the message to the router through
    [handleServerData], exactly once and to no other destination; in
    particular a message in mode single is dispatched locally whatever
    [masterRoomIds] holds. *)
Theorem message_dispatched_locally
    (id : string) (c : socket) (m : message) (ack : bool) (w : World) :
  sockets w !! id = Some c →
  (action m = Some "init" → ∃ name, data m = ParsedName name) →
  mode m = ModeConst single ∨ roomId c ∈ masterRoomIds (srv w) →
  outcome (connection_on_message id m ack) w = Ok tt
  ∧ filter is_delivery (emitted (connection_on_message id m ack) w)
    = [RouterHandleServerData (PMessage m)]
  ∧ filter is_ack (emitted (connection_on_message id m ack) w)
    = ack_effects m ack.
Proof.
  intros Hs Hinit Hauth.
  assert (bool_decide (mode m = ModeConst single)
          || bool_decide (indexOf (roomId c) (masterRoomIds (srv w)) >= 0) = true)
    as Hcond.
  { apply orb_true_iff. destruct Hauth as [Hm|Hr]; [left|right];
      apply bool_decide_eq_true; [done | by apply indexOf_ge_elem]. }
  unfold emitted, outcome, run, connection_on_message, with_socket.
  destruct w as [s sk ? ? ? ? ? ? tr]. simpl in *. msimpl. rewrite Hs. msimpl.
  match goal with
  | |- context [message_init m ?W] =>
      destruct (message_init_ok m W Hinit) as (l & -> & Hl & Hl')
  end.
  simpl. msimpl. rewrite Hcond. msimpl.
  destruct ack; simpl; unfold call, mret, M_ret, with_trace; simpl;
    (split; [reflexivity|]);
    rewrite <- ?app_assoc, drop_app_length, !filter_app, Hl, Hl';
    split; reflexivity.
Qed.

Lemma message_dispatched_locally_witness :
  filter is_delivery
    (emitted (connection_on_message "a" (init_arduino (ModeConst single)) true)
       world_one_connection)
  = [RouterHandleServerData (PMessage (init_arduino (ModeConst single)))].
Proof.
  apply (message_dispatched_locally "a"
           (Socket (Some (Query None (Some "r1"))) (Some "r1") None)
           (init_arduino (ModeConst single)) true world_one_connection).
  - vm_compute. reflexivity.
  - intros _. by eexists.
  - left. reflexivity.
Defined.

(** Messages for which this process is not authoritative, coming in on a
    connection that is not a child server, go to the target recorded for the
    connection's room, and nowhere else. *)
Lemma message_routed_to_target
    (id : string) (c : socket) (q : query) (t : string)
    (m : message) (ack : bool) (w : World) :
  sockets w !! id = Some c →
  handshake c = Some q →
  is_childServer q = false →
  clientTargetList (srv w) !! prop_key (roomId c) = Some t →
  t ≠ "" →
  roomId c ∉ masterRoomIds (srv w) →
  mode m ≠ ModeConst single →
  (action m = Some "init" → ∃ name, data m = ParsedName name) →
  outcome (connection_on_message id m ack) w = Ok tt
  ∧ filter is_delivery (emitted (connection_on_message id m ack) w)
    = [IoToEmit (Some t) "message" (PMessage m)]
  ∧ filter is_ack (emitted (connection_on_message id m ack) w)
    = ack_effects m ack.
Proof.
  intros Hs Hh Hq Ht Hne Hr Hm Hinit.
  assert (bool_decide (mode m = ModeConst single)
          || bool_decide (indexOf (roomId c) (masterRoomIds (srv w)) >= 0) = false)
    as Hcond.
  { apply orb_false_iff. split; apply bool_decide_eq_false; [done|].
    by rewrite indexOf_ge_elem. }
  unfold emitted, outcome, run, connection_on_message, with_socket.
  destruct w as [s sk ? ? ? ? ? ? tr]. simpl in *. msimpl. rewrite Hs. msimpl.
  match goal with
  | |- context [message_init m ?W] =>
      destruct (message_init_ok m W Hinit) as (l & -> & Hl & Hl')
  end.
  simpl. msimpl. rewrite Hcond. unfold handshake_query. rewrite Hh. msimpl.
  rewrite Hq. unfold obj_get. rewrite Ht. simpl.
  rewrite bool_decide_eq_true_2 by done. msimpl.
  destruct ack; simpl; unfold call, mret, M_ret, with_trace; simpl;
    (split; [reflexivity|]);
    rewrite <- ?app_assoc, drop_app_length, !filter_app, Hl, Hl';
    split; reflexivity.
Qed.

(** C4, as stated, fails for the same reason as C1: an [init] message whose
    [data] is not JSON, arriving from the controller of a claimed room the
    hub is not authoritative for, is not forwarded to the child server that
    claimed the room; nor is one whose [data] is the JSON text [null]. *)
Lemma init_unparseable_not_forwarded :
  sockets world_relay_claimed !! "c"
  = Some (Socket (Some (Query None (Some "r2"))) (Some "r2") None)
  ∧ clientTargetList (srv world_relay_claimed) !! "r2" = Some "b"
  ∧ is_Some (childServerList (srv world_relay_claimed) !! "b")
  ∧ (Some "r2" ∉ masterRoomIds (srv world_relay_claimed))
  ∧ outcome (connection_on_message "c" (init_unparseable ModeOther) true)
      world_relay_claimed
    = Throw (SyntaxError "Unexpected token in JSON")
  ∧ filter is_delivery
      (emitted (connection_on_message "c" (init_unparseable ModeOther) true)
         world_relay_claimed)
    = []
  ∧ outcome (connection_on_message "c" (init_null ModeOther) true)
      world_relay_claimed
    = Throw (TypeError "Cannot destructure property 'name' of null")
  ∧ filter is_delivery
      (emitted (connection_on_message "c" (init_null ModeOther) true)
         world_relay_claimed)
    = [].
Proof.
  split; [by vm_compute|]. split; [by vm_compute|].
  split; [exists true; by vm_compute|]. split; [|repeat split; by vm_compute].
  apply indexOf_not_elem. by vm_compute.
Qed.

(** C4, amended. For every room [r] whose entry in [clientTargetList] is the
    id [t] of a child server, and every message in which the [init]
    statement, if it runs (action [init]), does not throw, that is, whose
    [data] is JSON for a value other than [null]: when the message comes in
    on a connection of room [r] that is not a child server, [r] is not in
    [masterRoomIds] and the mode of the message is not single, the handler
    returns normally and emits the message to [t] only; the local router
    does not get it. *)
Theorem message_forwarded_to_target
    (id : string) (c : socket) (q : query) (r : jsv) (t : string)
    (m : message) (ack : bool) (w : World) :
  sockets w !! id = Some c →
  handshake c = Some q →
  is_childServer q = false →
  roomId c = r →
  clientTargetList (srv w) !! prop_key r = Some t →
  t ≠ "" →
  r ∉ masterRoomIds (srv w) →
  mode m ≠ ModeConst single →
  (action m = Some "init" → ∃ name, data m = ParsedName name) →
  outcome (connection_on_message id m ack) w = Ok tt
  ∧ filter is_delivery (emitted (connection_on_message id m ack) w)
    = [IoToEmit (Some t) "message" (PMessage m)]
  ∧ RouterHandleServerData (PMessage m)
    ∉ emitted (connection_on_message id m ack) w.
Proof.
  intros Hs Hh Hq <- Ht Hne Hr Hm Hinit.
  destruct (message_routed_to_target id c q t m ack w) as (Ho & Hd & _); try done.
  split; [done|]. split; [done|].
  intros Hin.
  assert (RouterHandleServerData (PMessage m)
          ∈ filter is_delivery (emitted (connection_on_message id m ack) w)) as Hf.
  { apply list_elem_of_filter. split; [done | exact Hin]. }
  rewrite Hd in Hf. apply list_elem_of_singleton in Hf. discriminate.
Qed.

Lemma message_forwarded_to_target_witness :
  filter is_delivery
    (emitted (connection_on_message "c" (init_arduino ModeOther) true)
       world_relay_claimed)
  = [IoToEmit (Some "b") "message" (PMessage (init_arduino ModeOther))].
Proof.
  apply (message_forwarded_to_target "c"
           (Socket (Some (Query None (Some "r2"))) (Some "r2") None)
           (Query None (Some "r2")) (Some "r2") "b"
           (init_arduino ModeOther) true world_relay_claimed).
  - vm_compute. reflexivity.
  - reflexivity.
  - reflexivity.
  - reflexivity.
  - vm_compute. reflexivity.
  - discriminate.
  - apply indexOf_not_elem. vm_compute. reflexivity.
  - discriminate.
  - intros _. by eexists.
Defined.

(** ** Relations kept by every step of a handler *)

Section Keeps.
Variable R : World → World → Prop.
Hypothesis R_refl : ∀ w, R w w.
Hypothesis R_trans : ∀ w1 w2 w3, R w1 w2 → R w2 w3 → R w1 w3.
Hypothesis R_trace : ∀ f w, R w (with_trace f w).

Lemma keeps_ret {A} (a : A) : keeps R (mret a).
Proof. intros w. apply R_refl. Qed.

Lemma keeps_throw {A} (e : exn) : keeps R (@throw A e).
Proof. intros w. apply R_refl. Qed.

Lemma keeps_get : keeps R get.
Proof. intros w. apply R_refl. Qed.

Lemma keeps_this : keeps R this.
Proof. intros w. apply R_refl. Qed.

Lemma keeps_call (e : effect) : keeps R (call e).
Proof. intros w. apply R_trace. Qed.

Lemma keeps_bind {A B} (m : M A) (k : A → M B) :
  keeps R m → (∀ a, keeps R (k a)) → keeps R (m ≫= k).
Proof.
  intros Hm Hk w. unfold run. rewrite bind_run.
  specialize (Hm w). unfold run in Hm.
  destruct (m w) as [[a|e] w']; simpl in *; [|done].
  eapply R_trans; [exact Hm | apply Hk].
Qed.

Lemma keeps_when (b : bool) (m : M unit) : keeps R m → keeps R (when b m).
Proof. destruct b; [done | intros _; apply keeps_ret]. Qed.

Lemma keeps_forEach {A} (l : list A) (f : A → M unit) :
  (∀ x, keeps R (f x)) → keeps R (forEach l f).
Proof.
  intros Hf. induction l as [|x l IH]; simpl.
  - apply keeps_ret.
  - apply keeps_bind; [apply Hf | intros _; apply IH].
Qed.

Lemma keeps_update (f : Server → Server) :
  (∀ w, R w (with_srv f w)) → keeps R (update f).
Proof. intros Hf w. apply Hf. Qed.

Lemma keeps_update_sockets f :
  (∀ w, R w (with_sockets f w)) → keeps R (update_sockets f).
Proof. intros Hf w. apply Hf. Qed.

Lemma keeps_ignore {A} (m : M A) : keeps R m → keeps R (ignore m).
Proof. intros Hm. apply keeps_bind; [done | intros; apply keeps_ret]. Qed.
End Keeps.

(** One step of a proof that a handler keeps a relation: split a sequence,
    close a leaf, or branch where the handler branches. *)
Ltac keeps_step :=
  match goal with
  | |- keeps _ (_ ≫= _) => apply keeps_bind; [try done..| |intros ?]
  | |- keeps _ (mret _) => apply keeps_ret; done
  | |- keeps _ (throw _) => apply keeps_throw; done
  | |- keeps _ get => apply keeps_get; done
  | |- keeps _ this => apply keeps_this; done
  | |- keeps _ (call _) => apply keeps_call; done
  | |- keeps _ (when _ _) => apply keeps_when; try done
  | |- keeps _ (forEach _ _) => apply keeps_forEach; [try done..|intros ?]
  | |- keeps _ (ignore _) => apply keeps_ignore; try done
  | |- keeps _ (if ?b then _ else _) => destruct b
  | |- keeps _ (match ?x with _ => _ end) => destruct x
  end.

(** ** [masterRoomIds] only grows *)

Lemma master_grows_refl w : master_grows w w.
Proof. unfold master_grows. done. Qed.

Lemma master_grows_trans w1 w2 w3 :
  master_grows w1 w2 → master_grows w2 w3 → master_grows w1 w3.
Proof. unfold master_grows. intros. by etrans. Qed.

Lemma master_grows_trace f w : master_grows w (with_trace f w).
Proof. unfold master_grows. by destruct w. Qed.

Lemma master_grows_push (r : jsv) : keeps master_grows (push_masterRoomId r).
Proof.
  intros w. unfold master_grows, push_masterRoomId, run, update.
  destruct w as [s ? ? ? ? ? ? ? ?]; destruct s; simpl. by apply prefix_app_r.
Qed.

Lemma master_grows_update (f : Server → Server) :
  (∀ s, masterRoomIds (f s) = masterRoomIds s) →
  keeps master_grows (update f).
Proof.
  intros Hf w. unfold master_grows, run, update. destruct w; simpl.
  by rewrite Hf.
Qed.

Lemma master_grows_world (f : World → World) :
  (∀ w, srv (f w) = srv w) →
  keeps master_grows (λ w, (Ok tt, f w)).
Proof. intros Hf w. unfold master_grows, run. simpl. by rewrite Hf. Qed.

Ltac master_step :=
  first
    [ apply master_grows_push
    | apply master_grows_update; intros []; reflexivity
    | apply master_grows_world; intros []; reflexivity
    | keeps_step ].

Create HintDb keeps.

Ltac master_tac :=
  repeat first
    [ solve [auto with keeps]
    | apply master_grows_refl
    | apply master_grows_trans
    | apply master_grows_trace
    | master_step ].

Lemma master_grows_send (p : payload) : keeps master_grows (send p).
Proof. unfold send. master_tac. Qed.
#[local] Hint Resolve master_grows_send : keeps.

Lemma master_grows_setState (st : jsv) : keeps master_grows (setState st).
Proof. unfold setState, send_packet. master_tac. Qed.

Lemma master_grows_open : keeps master_grows open.
Proof. unfold open, _getHttpServer. master_tac. Qed.

Lemma master_grows_requestHardware (n : jsv) :
  keeps master_grows (_requestHardware n).
Proof. unfold _requestHardware. master_tac. Qed.
#[local] Hint Resolve master_grows_setState master_grows_open
  master_grows_requestHardware : keeps.

(** C8. Every operation of the server, each method and each handler it
    registers, leaves [masterRoomIds] unchanged or appends room ids to it:
    the list before the operation is a prefix of the list after it, whether
    the operation returns or throws, so no element is ever removed. *)
Theorem masterRoomIds_monotone (o : operation) (w : World) :
  masterRoomIds (srv w) `prefix_of` masterRoomIds (srv (run (exec o) w))
  ∧ ∀ r, r ∈ masterRoomIds (srv w) → r ∈ masterRoomIds (srv (run (exec o) w)).
Proof.
  assert (keeps master_grows (exec o)) as Hk.
  { destruct o; simpl;
      unfold addRoomIdsOnSecondInstance, toggleServerMode, http_on_error,
        http_on_listening, client_on_connect, client_on_message,
        client_on_mode, client_on_reconnect_failed, client_on_disconnect,
        server_on_connection, connection_register, connection_on_matchTarget,
        connection_on_disconnect, connection_on_message, connection_on_close,
        request_on_response, response_on_error, zipStream_on_done,
        readFile_callback, closeSingleConnection, disconnectHardware, close,
        _createSocketClient, _getHttpServer, with_socket, handshake_query,
        message_init, rendererConsole.warn, rendererConsole.info,
        rendererConsole.send, toggleServerMode;
      master_tac. }
  split; [apply Hk|].
  intros r Hr. specialize (Hk w). unfold master_grows in Hk.
  destruct Hk as [k ->]. apply elem_of_app. by left.
Qed.

(** ** The display mode follows the child servers *)

Lemma same_registry_refl w : same_registry w w.
Proof. by unfold same_registry. Qed.

Lemma same_registry_trans w1 w2 w3 :
  same_registry w1 w2 → same_registry w2 w3 → same_registry w1 w3.
Proof. unfold same_registry. intros (?&?&?&?) (?&?&?&?). repeat split; congruence. Qed.

Lemma same_registry_trace f w : same_registry w (with_trace f w).
Proof. unfold same_registry. by destruct w. Qed.

Lemma same_registry_update (f : Server → Server) :
  (∀ s, childServerList (f s) = childServerList s) →
  (∀ s, currentServerMode (f s) = currentServerMode s) →
  keeps same_registry (update f).
Proof.
  intros H1 H2 w. unfold same_registry, run, update. destruct w; simpl.
  by rewrite H1, H2.
Qed.

Ltac registry_tac :=
  repeat first
    [ solve [auto with keeps]
    | apply same_registry_refl
    | apply same_registry_trans
    | apply same_registry_trace
    | apply same_registry_update; intros []; reflexivity
    | keeps_step ].

Ltac reg_simpl :=
  cbn [srv sockets sender childServerList currentServerMode with_sockets
       with_trace with_srv set_currentServerMode set_childServerList
       set_connections set_connectionSet snd fst].

Lemma same_registry_setState (st : jsv) : keeps same_registry (setState st).
Proof. unfold setState, send_packet, send. registry_tac. Qed.

(** What the [connection] handler has done when it registers the socket's
    handlers. *)
Lemma connection_register_ok (id : string) (q : query) (w : World) :
  is_Some (sender w) →
  let cs := if is_childServer q
            then <[id := true]> (childServerList (srv w))
            else childServerList (srv w) in
  ∃ w', connection_register id (Some q) w = (Ok tt, w')
        ∧ childServerList (srv w') = cs
        ∧ currentServerMode (srv w') = mode_of_count (size cs)
        ∧ sockets w'
          = <[id := Socket (Some q)
                      (if is_childServer q then None else q_roomId q) None]>
              (sockets w)
        ∧ sender w' = sender w.
Proof.
  intros [u Hu]. destruct w as [s sk ? ? ? sd ? ? tr]. simpl in Hu. subst sd.
  simpl. unfold connection_register, rendererConsole.info,
    rendererConsole.send, handshake_query, mode_of_count, keys_length.
  msimpl.
  destruct (is_childServer q); msimpl; case_bool_decide as Hc; msimpl;
    unfold toggleServerMode; msimpl; eexists; (split; [reflexivity|]);
    reg_simpl;
    (split; [reflexivity|]; split; [|split; reflexivity]).
  - by rewrite decide_True by lia.
  - by rewrite decide_False by lia.
  - by rewrite decide_True by lia.
  - by rewrite decide_False by lia.
Qed.

(** What the [connection] handler leaves in the registry. *)
Lemma connection_registry (id : string) (q : query) (w : World) :
  is_Some (sender w) →
  let w' := run (server_on_connection id (Some q)) w in
  let cs := if is_childServer q
            then <[id := true]> (childServerList (srv w))
            else childServerList (srv w) in
  childServerList (srv w') = cs
  ∧ currentServerMode (srv w') = mode_of_count (size cs)
  ∧ sockets w'
    = <[id := Socket (Some q) (if is_childServer q then None else q_roomId q) None]>
        (sockets w)
  ∧ sender w' = sender w.
Proof.
  intros Hs.
  destruct (connection_register_ok id q w Hs) as (w1 & Hreg & H1 & H2 & H3 & H4).
  intros w' cs. subst w'. unfold run, server_on_connection.
  rewrite bind_run, Hreg, bind_run. unfold this. cbv beta iota.
  destruct (same_registry_setState (state (srv w1)) w1) as (E1 & E2 & E3 & E4).
  unfold run in E1, E2, E3, E4. rewrite E1, E2, E3, E4. by repeat split.
Qed.

Lemma relay_count_size (w : World) (L : gmap string query) :
  registry_inv w L → size (childServerList (srv w)) = relay_count L.
Proof.
  intros (Hdom & _). unfold relay_count.
  rewrite <- (size_dom (D := gset string) (childServerList (srv w))).
  rewrite <- (size_dom (D := gset string) (filter is_relay L)).
  by rewrite Hdom.
Qed.

Lemma connect_step (id : string) (q : query) (w : World) (L : gmap string query) :
  registry_inv w L →
  L !! id = None →
  registry_inv (run (handle (Connect id q)) w) (<[id := q]> L)
  ∧ currentServerMode (srv (run (handle (Connect id q)) w))
    = mode_of_count (relay_count (<[id := q]> L)).
Proof.
  intros Hinv Hfresh. pose proof Hinv as (Hdom & Hsock & Hsend).
  destruct (connection_registry id q w Hsend) as (Hcs & Hmode & Hsk & Hsd).
  simpl in *.
  assert (registry_inv (run (server_on_connection id (Some q)) w) (<[id := q]> L))
    as Hinv'.
  { split; [|split].
    - rewrite Hcs. destruct (is_childServer q) eqn:Hq.
      + rewrite map_filter_insert_True by done.
        by rewrite !dom_insert_L, Hdom.
      + rewrite map_filter_insert_not'; [done| |].
        * unfold is_relay. simpl. by rewrite Hq.
        * intros y Hy. congruence.
    - intros id' q' Hl. rewrite Hsk.
      destruct (decide (id = id')) as [->|Hne].
      + rewrite lookup_insert_eq in Hl. simplify_eq.
        rewrite lookup_insert_eq. eauto.
      + rewrite lookup_insert_ne in Hl by done.
        rewrite lookup_insert_ne by done. eauto.
    - by rewrite Hsd. }
  split; [exact Hinv'|].
  rewrite Hmode, <- Hcs. by rewrite (relay_count_size _ _ Hinv').
Qed.

Lemma disconnect_step (id : string) (w : World) (L : gmap string query) :
  registry_inv w L →
  currentServerMode (srv w) = mode_of_count (relay_count L) →
  is_Some (L !! id) →
  registry_inv (run (handle (Disconnect id)) w) (delete id L)
  ∧ currentServerMode (srv (run (handle (Disconnect id)) w))
    = mode_of_count (relay_count (delete id L)).
Proof.
  intros Hinv Hmode [q Hq]. pose proof Hinv as (Hdom & Hsock & Hsend).
  destruct (Hsock id q Hq) as (c & Hc & Hh).
  assert (∀ id' q', delete id L !! id' = Some q' →
            ∃ c', sockets w !! id' = Some c' ∧ handshake c' = Some q') as Hsock'.
  { intros id' q' Hl. apply lookup_delete_Some in Hl as [_ Hl]. eauto. }
  simpl. unfold run. destruct (is_childServer q) eqn:Hrel.
  - rewrite (disconnect_relay id c q w Hc Hh Hrel).
    assert (dom (delete id (childServerList (srv w)))
            = dom (filter is_relay (delete id L))) as Hdom'.
    { by rewrite map_filter_delete, !dom_delete_L, Hdom. }
    assert (size (delete id (childServerList (srv w)))
            = relay_count (delete id L)) as Hsize.
    { unfold relay_count.
      rewrite <- (size_dom (D := gset string) (delete id (childServerList (srv w)))).
      rewrite <- (size_dom (D := gset string) (filter is_relay (delete id L))).
      by rewrite Hdom'. }
    pose proof (relay_count_size _ _ Hinv) as Hsz.
    assert (size (delete id (childServerList (srv w)))
            ≤ size (childServerList (srv w)))%nat as Hdel.
    { rewrite map_size_delete. destruct (childServerList (srv w) !! id); simpl; lia. }
    unfold keys_length. cbv zeta. unfold registry_inv, mode_of_count.
    case_bool_decide as Hcnt; reg_simpl.
    + split; [by repeat split|].
      rewrite <- Hsize. by rewrite decide_False by lia.
    + split; [by repeat split|].
      rewrite Hmode. unfold mode_of_count. rewrite <- Hsize, <- Hsz.
      rewrite !decide_True; [done | lia | lia].
  - assert (∀ q', handshake c = Some q' → is_childServer q' = false) as Hq'
      by (intros ?; congruence).
    rewrite (disconnect_controller id c w Hc Hq').
    assert (filter is_relay (delete id L) = filter is_relay L) as Hfilter.
    { apply map_filter_delete_not. intros y Hy. simplify_eq.
      unfold is_relay. simpl. by rewrite Hrel. }
    unfold registry_inv, relay_count. rewrite Hfilter. reg_simpl.
    split; [by repeat split|]. exact Hmode.
Qed.

Lemma event_step (e : hub_event) (w : World) (L : gmap string query) :
  registry_inv w L →
  currentServerMode (srv w) = mode_of_count (relay_count L) →
  event_ok L e →
  registry_inv (run (handle e) w) (live_step L e)
  ∧ currentServerMode (srv (run (handle e) w))
    = mode_of_count (relay_count (live_step L e)).
Proof.
  intros Hinv Hmode Hok. destruct e as [id q|id]; simpl in Hok.
  - by apply connect_step.
  - by apply disconnect_step.
Qed.

Lemma run_events_inv (evs : list hub_event) (w : World) (L : gmap string query) :
  registry_inv w L →
  currentServerMode (srv w) = mode_of_count (relay_count L) →
  events_ok L evs →
  registry_inv (run_events evs w) (foldl live_step L evs)
  ∧ currentServerMode (srv (run_events evs w))
    = mode_of_count (relay_count (foldl live_step L evs)).
Proof.
  revert w L. induction evs as [|e evs IH]; intros w L Hinv Hmode Hok.
  - by split.
  - destruct Hok as [He Hok]. simpl.
    destruct (event_step e w L Hinv Hmode He) as [Hinv' Hmode'].
    by apply IH.
Qed.

Lemma events_ok_take (n : nat) (evs : list hub_event) (L : gmap string query) :
  events_ok L evs → events_ok L (take n evs).
Proof.
  revert n L. induction evs as [|e evs IH]; intros [|n] L Hok; simpl; try done.
  destruct Hok as [He Hok]. split; [done | by apply IH].
Qed.

(** C2. Take a hub on which no child server is registered yet (and whose
    console is set up), and any sequence of connect and disconnect events in
    which connecting sockets have fresh ids and only live sockets
    disconnect. After each event of the sequence [currentServerMode] is
    multi if the number of live child-server connections is greater than
    zero, and single otherwise. *)
Theorem display_mode_tracks_relays (w0 : World) (evs : list hub_event) (n : nat) :
  childServerList (srv w0) = ∅ →
  is_Some (sender w0) →
  events_ok ∅ evs →
  (0 < n ≤ length evs)%nat →
  let w := run_events (take n evs) w0 in
  let k := relay_count (live_after (take n evs)) in
  currentServerMode (srv w) = mode_of_count k
  ∧ (currentServerMode (srv w) = multi ↔ (0 < k)%nat)
  ∧ (currentServerMode (srv w) = single ↔ k = 0%nat).
Proof.
  intros Hcs Hsend Hok Hn w k.
  assert (currentServerMode (srv w) = mode_of_count k) as Hmode.
  { subst w k. unfold live_after.
    assert (events_ok ∅ (take n evs)) as Hok' by by apply events_ok_take.
    destruct (take n evs) as [|e pre] eqn:Hpre.
    { apply (f_equal length) in Hpre. rewrite length_take in Hpre.
      simpl in Hpre. lia. }
    destruct Hok' as [He Hok']. simpl.
    assert (registry_inv w0 ∅) as Hinv0.
    { split; [|split; [|done]].
      - by rewrite Hcs, map_filter_empty, !dom_empty_L.
      - intros id q Hl. by rewrite lookup_empty in Hl. }
    destruct e as [id q|id]; simpl in He.
    - destruct (connect_step id q w0 ∅ Hinv0 He) as [Hinv1 Hmode1].
      by apply run_events_inv.
    - rewrite lookup_empty in He. by destruct He. }
  split; [exact Hmode|]. rewrite Hmode. unfold mode_of_count.
  destruct (decide (0 < k)%nat); split; split; intros; try done; lia.
Qed.

Lemma display_mode_tracks_relays_witness :
  currentServerMode (srv (run_events (take 1 sample_events) initial_world)) = single
  ∧ currentServerMode (srv (run_events (take 3 sample_events) initial_world)) = multi
  ∧ currentServerMode (srv (run_events (take 4 sample_events) initial_world)) = multi
  ∧ currentServerMode (srv (run_events (take 6 sample_events) initial_world)) = single.
Proof.
  assert (events_ok ∅ sample_events) as Hok.
  { simpl. repeat split; try (vm_compute; reflexivity);
      eexists; vm_compute; reflexivity. }
  assert (is_Some (sender initial_world)) as Hs by (eexists; reflexivity).
  destruct (display_mode_tracks_relays initial_world sample_events 1
              eq_refl Hs Hok) as (H1 & _); [simpl; lia|].
  destruct (display_mode_tracks_relays initial_world sample_events 3
              eq_refl Hs Hok) as (H3 & _); [simpl; lia|].
  destruct (display_mode_tracks_relays initial_world sample_events 4
              eq_refl Hs Hok) as (H4 & _); [simpl; lia|].
  destruct (display_mode_tracks_relays initial_world sample_events 6
              eq_refl Hs Hok) as (H6 & _); [simpl; lia|].
  split; [exact H1|]. split; [exact H3|]. split; [exact H4 | exact H6].
Defined.

(** * Properties of the rest of the class *)

(** ** What every operation keeps *)

Section Related.
Variable Q : Server → Server → Prop.
Hypothesis Q_refl : ∀ s, Q s s.
Hypothesis Q_trans : ∀ s1 s2 s3, Q s1 s2 → Q s2 s3 → Q s1 s3.

Lemma related_refl w : srv_related Q w w.
Proof. apply Q_refl. Qed.

Lemma related_trans w1 w2 w3 :
  srv_related Q w1 w2 → srv_related Q w2 w3 → srv_related Q w1 w3.
Proof. apply Q_trans. Qed.

Lemma related_trace f w : srv_related Q w (with_trace f w).
Proof. unfold srv_related. destruct w. apply Q_refl. Qed.

Lemma related_update (f : Server → Server) :
  (∀ s, Q s (f s)) → keeps (srv_related Q) (update f).
Proof. intros Hf w. unfold srv_related, run, update. destruct w. apply Hf. Qed.

Lemma related_world (f : World → World) :
  (∀ w, srv (f w) = srv w) → keeps (srv_related Q) (λ w, (Ok tt, f w)).
Proof.
  intros Hf w. unfold srv_related, run. simpl. rewrite Hf. apply Q_refl.
Qed.

Lemma related_update_sockets f : keeps (srv_related Q) (update_sockets f).
Proof. intros w. unfold srv_related, run, update_sockets. destruct w. apply Q_refl. Qed.
End Related.

Lemma holds_after_refl P s : holds_after P s s.
Proof. by intros ?. Qed.

Lemma holds_after_trans P s1 s2 s3 :
  holds_after P s1 s2 → holds_after P s2 s3 → holds_after P s1 s3.
Proof. unfold holds_after. auto. Qed.

(** All handlers, down to the steps of the monad. *)
Ltac unfold_handlers :=
  unfold addRoomIdsOnSecondInstance, http_on_error,
    http_on_listening, client_on_connect, client_on_message,
    client_on_mode, client_on_reconnect_failed, client_on_disconnect,
    server_on_connection, connection_register, connection_on_matchTarget,
    connection_on_disconnect, connection_on_message, connection_on_close,
    request_on_response, response_on_error, zipStream_on_done,
    readFile_callback, closeSingleConnection, disconnectHardware, close,
    message_init, with_socket, handshake_query;
  unfold setState, _requestHardware, open, _createSocketClient,
    rendererConsole.warn, rendererConsole.info, toggleServerMode,
    push_masterRoomId;
  unfold send_packet, _getHttpServer, rendererConsole.send;
  unfold send.

(** [related_tac Hr Ht upd]: walk through a handler for the relation whose
    reflexivity and transitivity are [Hr] and [Ht]; [upd] settles a field
    update, given the server object taken apart. *)
Ltac related_tac Hr Ht upd :=
  repeat first
    [ apply (related_refl _ Hr)
    | apply (related_trans _ Ht)
    | apply (related_trace _ Hr)
    | apply (related_update_sockets _ Hr)
    | apply (related_world _ Hr); intros []; reflexivity
    | apply related_update; intros []; upd
    | keeps_step ].

Lemma valid_packet_write (pkt : list Z) (v : Z) :
  (∃ x, pkt = [0x01; 0x00; 0x00; x] ∧ 0 ≤ x ≤ 4) →
  0 ≤ v ≤ 4 →
  ∃ x, <[3%nat := v]> pkt = [0x01; 0x00; 0x00; x] ∧ 0 ≤ x ≤ 4.
Proof. intros (x & -> & _) Hv. by exists v. Qed.

(** X1. The state packet keeps its shape under every operation: if it is
    [0x01,0x00,0x00,x] with [x] between 0 and 4 before a method or handler
    runs, it is so afterwards, whether the operation returns or throws. The
    packet of a new server has that shape. *)
Theorem packet_shape_kept (o : operation) (w : World) :
  valid_packet constructor
  ∧ (valid_packet (srv w) → valid_packet (srv (run (exec o) w))).
Proof.
  split; [by exists 0|].
  assert (keeps (srv_related (holds_after valid_packet)) (exec o)) as Hk.
  { destruct o; simpl; unfold_handlers;
      related_tac (holds_after_refl valid_packet) (holds_after_trans valid_packet)
        ltac:(unfold holds_after, valid_packet; simpl;
              first [ done | intros; by apply valid_packet_write ]). }
  apply Hk.
Qed.

Lemma packet_shape_kept_witness :
  valid_packet (srv (run (exec (OpSetState (Some "lost"))) world_one_connection)).
Proof.
  apply (packet_shape_kept (OpSetState (Some "lost")) world_one_connection).
  exists 0. split; [reflexivity | lia].
Defined.

(** X2. [runningMode] is only ever parent or child: a new server runs as
    parent, and no method or handler gives it another value. So the second
    branch of [send] is taken exactly by a parent with child servers. *)
Theorem runningMode_parent_or_child (o : operation) (w : World) :
  role_known constructor
  ∧ (role_known (srv w) → role_known (srv (run (exec o) w)))
  ∧ (role_known (srv w) → ¬ direct_mode (srv w) →
     runningMode (srv w) = parent ∧ (0 < size (childServerList (srv w)))%nat).
Proof.
  split; [by left|]. split.
  - assert (keeps (srv_related (holds_after role_known)) (exec o)) as Hk.
    { destruct o; simpl; unfold_handlers;
        related_tac (holds_after_refl role_known) (holds_after_trans role_known)
          ltac:(unfold holds_after, role_known; simpl; by auto). }
    apply Hk.
  - unfold role_known, direct_mode. intros [Hp|Hc] Hd; [|tauto].
    split; [done|].
    destruct (size (childServerList (srv w))); [tauto | lia].
Qed.

Lemma runningMode_parent_or_child_witness :
  role_known (srv (run (exec OpHttpError) initial_world))
  ∧ runningMode (srv world_relay_claimed) = parent.
Proof.
  split.
  - apply (runningMode_parent_or_child OpHttpError initial_world).
    left. reflexivity.
  - apply (runningMode_parent_or_child OpOpen world_relay_claimed).
    + left. reflexivity.
    + intros [[_ H]|H]; vm_compute in H; discriminate H.
Defined.

Lemma connections_grow_refl s : connections_grow s s.
Proof. by unfold connections_grow. Qed.

Lemma connections_grow_trans s1 s2 s3 :
  connections_grow s1 s2 → connections_grow s2 s3 → connections_grow s1 s3.
Proof. unfold connections_grow. intros. by etrans. Qed.

(** X3. Except for [close()], no method or handler ever takes a socket out
    of the connections list: the list before the operation is a prefix of
    the list after it. In particular the disconnect and close handlers of a
    socket leave its entry in place. *)
Theorem connections_never_pruned (o : operation) (w : World) :
  o ≠ OpServerClose →
  connections (srv w) `prefix_of` connections (srv (run (exec o) w)).
Proof.
  intros Ho.
  assert (keeps (srv_related connections_grow) (exec o)) as Hk.
  { destruct o; try done; simpl; unfold_handlers;
      related_tac connections_grow_refl connections_grow_trans
        ltac:(unfold connections_grow; simpl;
              first [ done | by apply prefix_app_r ]). }
  apply Hk.
Qed.

Lemma connections_never_pruned_witness :
  connections (srv world_relay_claimed)
  `prefix_of` connections (srv (run (exec (OpDisconnect "b")) world_relay_claimed)).
Proof.
  apply (connections_never_pruned (OpDisconnect "b") world_relay_claimed).
  discriminate.
Defined.

Lemma targets_grow_refl s : targets_grow s s.
Proof. by unfold targets_grow. Qed.

Lemma targets_grow_trans s1 s2 s3 :
  targets_grow s1 s2 → targets_grow s2 s3 → targets_grow s1 s3.
Proof. unfold targets_grow. intros. by etrans. Qed.

(** X4. No method or handler ever removes an entry of [clientTargetList]:
    a room that has a target keeps one (the latest claim), also after the
    child server that claimed it has disconnected and after [close()]. *)
Theorem clientTargetList_never_released (o : operation) (w : World) (r : string) :
  dom (clientTargetList (srv w)) ⊆ dom (clientTargetList (srv (run (exec o) w)))
  ∧ (is_Some (clientTargetList (srv w) !! r) →
     is_Some (clientTargetList (srv (run (exec o) w)) !! r)).
Proof.
  assert (keeps (srv_related targets_grow) (exec o)) as Hk.
  { destruct o; simpl; unfold_handlers;
      related_tac targets_grow_refl targets_grow_trans
        ltac:(unfold targets_grow, obj_set; simpl;
              first [ done
                    | case_decide; [done | rewrite dom_insert; set_solver] ]). }
  split; [apply Hk|].
  rewrite <- !elem_of_dom. intros Hr. by apply (Hk w).
Qed.

Lemma clientTargetList_never_released_witness :
  is_Some (clientTargetList (srv (run (exec (OpDisconnect "b")) world_relay_claimed))
             !! "r2").
Proof.
  apply (clientTargetList_never_released (OpDisconnect "b") world_relay_claimed "r2").
  exists "b". vm_compute. reflexivity.
Defined.

Lemma unchanged_refl s : unchanged s s.
Proof. by unfold unchanged. Qed.

Lemma unchanged_trans s1 s2 s3 :
  unchanged s1 s2 → unchanged s2 s3 → unchanged s1 s3.
Proof. unfold unchanged. congruence. Qed.

(** X5. Routing, sending and fetching only read the server object: the
    message handler of a connection, the close handler, [send],
    [disconnectHardware], [closeSingleConnection], [open], the handlers of
    the uplink's messages and of the module request leave every field of
    the server as it was, whether they return or throw. *)
Theorem read_only_operations (o : operation) (w : World) :
  read_only o = true → srv (run (exec o) w) = srv w.
Proof.
  intros Ho.
  assert (keeps (srv_related unchanged) (exec o)) as Hk.
  { destruct o; try discriminate Ho; simpl; unfold_handlers;
      related_tac unchanged_refl unchanged_trans ltac:(fail). }
  apply Hk.
Qed.

Lemma read_only_operations_witness :
  srv (run (exec (OpMessage "c" (init_unparseable ModeOther) true)) world_relay_claimed)
  = srv world_relay_claimed.
Proof.
  apply (read_only_operations
           (OpMessage "c" (init_unparseable ModeOther) true) world_relay_claimed).
  reflexivity.
Defined.

(** ** The room ids this process answers for *)

Lemma add_room_elem (m : list jsv) (r x : jsv) :
  x ∈ add_room m r ↔ x ∈ m ∨ x = r.
Proof.
  unfold add_room. case_bool_decide as Hi.
  - rewrite elem_of_app, list_elem_of_singleton. tauto.
  - assert (r ∈ m) as Hr.
    { destruct (decide (r ∈ m)) as [|Hn]; [done|].
      by apply indexOf_not_elem in Hn. }
    split; [by left | intros [?| ->]; done].
Qed.

Lemma add_room_NoDup (m : list jsv) (r : jsv) : NoDup m → NoDup (add_room m r).
Proof.
  unfold add_room. intros Hm. case_bool_decide as Hi; [|done].
  apply NoDup_app. split; [done|]. split; [|apply NoDup_singleton].
  intros x Hx ->%list_elem_of_singleton. by apply indexOf_not_elem in Hi.
Qed.

Lemma add_room_idemp (m : list jsv) (r : jsv) :
  add_room (add_room m r) r = add_room m r.
Proof.
  unfold add_room at 1. rewrite bool_decide_eq_false_2; [done|].
  rewrite indexOf_not_elem. intros Hn. apply Hn. apply add_room_elem. by right.
Qed.

Lemma merge_rooms_elem (rs m : list jsv) (x : jsv) :
  x ∈ merge_rooms m rs ↔ x ∈ m ∨ (x ∈ rs ∧ truthy x = true).
Proof.
  revert m. induction rs as [|r rs IH]; intros m; simpl.
  - split; [by left | intros [?|[?%elem_of_nil _]]; done].
  - unfold merge_rooms in *. simpl. rewrite IH. rewrite elem_of_cons.
    destruct (truthy r) eqn:Hr.
    + rewrite add_room_elem. split.
      * intros [[?| ->]|[? ?]]; [by left | right; split; [by left|done] |].
        right. split; [by right|done].
      * intros [?|[[->|?] ?]]; [left; by left | left; by right |].
        right. by split.
    + split.
      * intros [?|[? ?]]; [by left|]. right. split; [by right|done].
      * intros [?|[[->|?] Ht]]; [by left | congruence |]. right. by split.
Qed.

Lemma merge_rooms_NoDup (rs m : list jsv) : NoDup m → NoDup (merge_rooms m rs).
Proof.
  revert m. induction rs as [|r rs IH]; intros m Hm; [done|].
  unfold merge_rooms in *. simpl. apply IH.
  destruct (truthy r); [by apply add_room_NoDup | done].
Qed.

Lemma with_srv_id (w : World) : with_srv (λ s, s) w = w.
Proof. by destruct w. Qed.

Lemma set_masterRoomIds_same (s : Server) : set_masterRoomIds (masterRoomIds s) s = s.
Proof. by destruct s. Qed.

(** The loop of the [listening] handler. *)
Lemma listening_loop (rs : list jsv) (w : World) :
  forEach rs (λ mRoomId,
    s ← this;
    when (bool_decide (indexOf mRoomId (masterRoomIds s) = -1) && truthy mRoomId)
      (push_masterRoomId mRoomId)) w
  = (Ok tt, with_srv (λ s, set_masterRoomIds (merge_rooms (masterRoomIds s) rs) s) w).
Proof.
  revert w. induction rs as [|r rs IH]; intros w; simpl.
  - unfold merge_rooms. simpl. destruct w as [s ? ? ? ? ? ? ? ?].
    unfold mret, M_ret, with_srv. simpl. by rewrite set_masterRoomIds_same.
  - destruct w as [s ? ? ? ? ? ? ? ?]; destruct s as [? ? ? ? ? ? ? ? m ? ? ? ? ?].
    msimpl. unfold merge_rooms, with_srv. simpl. unfold add_room.
    destruct (truthy r), (bool_decide (indexOf r m = -1));
      simpl; msimpl; unfold push_masterRoomId; msimpl; rewrite ?IH;
      reflexivity.
Qed.

Lemma listening_result (w : World) :
  http_on_listening w
  = (Ok tt,
     with_trace (λ t, t ++ [IoListen transports])
       (with_srv (λ s, set_socketServer (Some tt) (set_httpServer (Some tt)
                    (set_runningMode parent
                      (set_masterRoomIds
                        (merge_rooms (masterRoomIds s) (router_roomIds w)) s))))
          w)).
Proof.
  unfold http_on_listening. rewrite bind_run. unfold get at 1. cbv beta iota.
  rewrite bind_run. unfold when. case_bool_decide as Hlen.
  - rewrite listening_loop. msimpl. by destruct w as [s ? ? ? ? ? ? ? ?].
  - destruct (router_roomIds w) eqn:Hr; [|simpl in Hlen; lia].
    msimpl. unfold merge_rooms. simpl.
    destruct w as [s ? ? ? ? ? ? ? ?]; destruct s; reflexivity.
Qed.

(** X6. When the http server is listening, the handler adds to
    [masterRoomIds] exactly the non-empty room ids of the router that are
    not there yet, each once: afterwards a room id is in the list if and
    only if it was there or is a non-empty id of the router. The server
    then runs as parent and has its http and socket.io servers. *)
Theorem listening_merges_router_rooms (w : World) (x : jsv) :
  let w' := run http_on_listening w in
  outcome http_on_listening w = Ok tt
  ∧ masterRoomIds (srv w') = merge_rooms (masterRoomIds (srv w)) (router_roomIds w)
  ∧ (x ∈ masterRoomIds (srv w')
     ↔ x ∈ masterRoomIds (srv w) ∨ (x ∈ router_roomIds w ∧ truthy x = true))
  ∧ runningMode (srv w') = parent
  ∧ is_Some (httpServer (srv w')) ∧ is_Some (socketServer (srv w')).
Proof.
  simpl. unfold outcome, run. rewrite listening_result.
  destruct w as [s ? ? ? rs ? ? ? ?]; simpl.
  split; [done|]. split; [done|]. split; [apply merge_rooms_elem|]. by eauto.
Qed.

(** One round of the loop of the uplink's [connect] handler. *)
Lemma connect_round (n : nat) (r : jsv) (w : World) :
  when (truthy r)
    (s ← this;
     when (bool_decide (indexOf r (masterRoomIds s) = -1)) (push_masterRoomId r);;
     call (SocketEmit (CliSocket n) "matchTarget" (PMatchTarget r))) w
  = (Ok tt,
     if truthy r
     then with_trace (λ t, t ++ [SocketEmit (CliSocket n) "matchTarget" (PMatchTarget r)])
            (with_srv (λ s, set_masterRoomIds (add_room (masterRoomIds s) r) s) w)
     else w).
Proof.
  destruct w as [s ? ? ? ? ? ? ? ?]; destruct s as [? ? ? ? ? ? ? ? m ? ? ? ? ?].
  unfold when at 1. destruct (truthy r); [|reflexivity].
  msimpl. unfold add_room, with_srv, with_trace. simpl.
  destruct (bool_decide (indexOf r m = -1)); simpl; msimpl;
    unfold push_masterRoomId; msimpl; reflexivity.
Qed.

(** The loop of the uplink's [connect] handler. *)
Lemma connect_loop (n : nat) (rs : list jsv) (w : World) :
  forEach rs (λ roomId,
    when (truthy roomId)
      (s ← this;
       when (bool_decide (indexOf roomId (masterRoomIds s) = -1))
         (push_masterRoomId roomId);;
       call (SocketEmit (CliSocket n) "matchTarget" (PMatchTarget roomId)))) w
  = (Ok tt,
     with_trace
       (λ t, t ++ map (λ r, SocketEmit (CliSocket n) "matchTarget" (PMatchTarget r))
                    (filter truthy rs))
       (with_srv (λ s, set_masterRoomIds (merge_rooms (masterRoomIds s) rs) s) w)).
Proof.
  revert w. induction rs as [|r rs IH]; intros w.
  - destruct w as [s ? ? ? ? ? ? ? ?]; destruct s. simpl.
    unfold mret, M_ret, with_srv, with_trace. simpl. by rewrite app_nil_r.
  - cbn [forEach]. rewrite bind_run, connect_round, IH.
    rewrite filter_cons. unfold merge_rooms. cbn [foldl].
    destruct w as [s ? ? ? ? ? ? ? ?]; destruct s as [? ? ? ? ? ? ? ? m ? ? ? ? ?].
    destruct (truthy r) eqn:Hr.
    + unfold with_srv, with_trace. simpl. by rewrite <- app_assoc.
    + reflexivity.
Qed.

Lemma uplink_connect_result (n : nat) (w : World) :
  client_on_connect n w
  = (Ok tt,
     with_trace
       (λ t, t ++ map (λ r, SocketEmit (CliSocket n) "matchTarget" (PMatchTarget r))
                    (filter truthy (router_roomIds w)))
       (with_srv (λ s, set_masterRoomIds
                         (merge_rooms (masterRoomIds s) (router_roomIds w)) s)
          w)).
Proof.
  unfold client_on_connect. rewrite bind_run. unfold get at 1. cbv beta iota.
  unfold when at 1. case_bool_decide as Hlen; [apply connect_loop|].
  destruct (router_roomIds w) eqn:Hr; [|simpl in Hlen; lia].
  destruct w as [s ? ? ? ? ? ? ? ?]; destruct s. simpl.
  unfold mret, M_ret, with_srv, with_trace, merge_rooms. simpl.
  by rewrite app_nil_r.
Qed.

(** X7. When the uplink of a child connects, the handler claims every
    non-empty room id of the router at the hub, in the router's order and
    once per entry (also for a room that is in [masterRoomIds] already, and
    again for an id listed twice), and adds those ids to [masterRoomIds],
    each once. Entries without id are skipped. *)
Theorem uplink_connect_claims_rooms (n : nat) (w : World) (x : jsv) :
  let w' := run (client_on_connect n) w in
  outcome (client_on_connect n) w = Ok tt
  ∧ emitted (client_on_connect n) w
    = map (λ r, SocketEmit (CliSocket n) "matchTarget" (PMatchTarget r))
        (filter truthy (router_roomIds w))
  ∧ masterRoomIds (srv w') = merge_rooms (masterRoomIds (srv w)) (router_roomIds w)
  ∧ (x ∈ masterRoomIds (srv w')
     ↔ x ∈ masterRoomIds (srv w) ∨ (x ∈ router_roomIds w ∧ truthy x = true)).
Proof.
  simpl. unfold emitted, outcome, run. rewrite uplink_connect_result.
  destruct w as [s ? ? ? rs ? ? ? ?]; simpl.
  split; [done|]. split; [by rewrite drop_app_length|]. split; [done|].
  apply merge_rooms_elem.
Qed.

Lemma addRoomIds_result (r : jsv) (w : World) :
  addRoomIdsOnSecondInstance r w
  = (Ok tt,
     if decide (runningMode (srv w) = parent) then
       with_srv (λ s, set_masterRoomIds (add_room (masterRoomIds s) r) s) w
     else if truthy r then
       with_trace
         (λ t, t ++ match socketClient (srv w) with
                    | HSocket n =>
                        [SocketEmit (CliSocket n) "matchTarget" (PMatchTarget r)]
                    | _ => []
                    end)
         (with_srv (λ s, set_masterRoomIds (add_room (masterRoomIds s) r)
                           (set_clientRoomId r s)) w)
     else w).
Proof.
  destruct w as [s ? ? ? ? ? ? ? ?];
    destruct s as [? ? ? ? ? ? rm ? m ? sc ? ? ?].
  unfold addRoomIdsOnSecondInstance. msimpl. unfold add_room, with_srv, with_trace.
  simpl. destruct (decide (rm = parent)) as [Hp|Hp].
  - unfold when. destruct (bool_decide (indexOf r m = -1));
      unfold push_masterRoomId, with_srv, update, mret, M_ret; reflexivity.
  - unfold when at 1. destruct (truthy r); [|reflexivity].
    msimpl. unfold with_srv, with_trace. simpl.
    destruct sc; unfold call, mret, M_ret; msimpl;
      unfold this, when; cbv beta iota; simpl;
      destruct (bool_decide (indexOf r m = -1));
      unfold push_masterRoomId, update, call, mret, M_ret, with_srv, with_trace;
      simpl; rewrite ?app_nil_r; reflexivity.
Qed.

(** X8. [addRoomIdsOnSecondInstance(roomId)] on a parent puts [roomId] into
    [masterRoomIds] whatever it is (also an empty or missing id) and tells
    nobody. On a child an empty or missing id changes nothing; any other id
    is recorded as [clientRoomId], put into [masterRoomIds] and claimed at
    the hub when the uplink socket is there. In every case the id is added
    at most once, and calling the method again with the same id leaves the
    server as the first call left it. *)
Theorem addRoomIds_behaviour (r : jsv) (w : World) :
  let w' := run (addRoomIdsOnSecondInstance r) w in
  outcome (addRoomIdsOnSecondInstance r) w = Ok tt
  ∧ (runningMode (srv w) = parent →
     r ∈ masterRoomIds (srv w') ∧ emitted (addRoomIdsOnSecondInstance r) w = [])
  ∧ (runningMode (srv w) ≠ parent → truthy r = false → w' = w)
  ∧ (runningMode (srv w) ≠ parent → truthy r = true →
     r ∈ masterRoomIds (srv w') ∧ clientRoomId (srv w') = r
     ∧ emitted (addRoomIdsOnSecondInstance r) w
       = match socketClient (srv w) with
         | HSocket n => [SocketEmit (CliSocket n) "matchTarget" (PMatchTarget r)]
         | _ => []
         end)
  ∧ (∀ x, x ∈ masterRoomIds (srv w') → x ∈ masterRoomIds (srv w) ∨ x = r)
  ∧ srv (run (addRoomIdsOnSecondInstance r) w') = srv w'.
Proof.
  simpl. unfold emitted, outcome, run. rewrite addRoomIds_result.
  destruct w as [s ? ? ? ? ? ? ? tr];
    destruct s as [? ? ? ? ? ? rm ? m ? sc ? ? ?]. simpl.
  split; [done|]. split; [|split; [|split; [|split]]].
  - intros ->. simpl. split; [apply add_room_elem; by right | apply drop_all].
  - intros Hp Hr. rewrite decide_False by done. by rewrite Hr.
  - intros Hp Hr. rewrite decide_False by done. rewrite Hr. simpl.
    split; [apply add_room_elem; by right|]. split; [done|].
    by rewrite drop_app_length.
  - intros x.
    destruct (decide (rm = parent)); [|destruct (truthy r)]; simpl;
      rewrite ?add_room_elem; tauto.
  - rewrite addRoomIds_result.
    destruct (decide (rm = parent)); [|destruct (truthy r) eqn:Hr]; simpl.
    + rewrite decide_True by done. simpl. by rewrite add_room_idemp.
    + rewrite decide_False by done. simpl. by rewrite add_room_idemp.
    + by rewrite decide_False by done.
Qed.

Lemma addRoomIds_behaviour_witness :
  None ∈ masterRoomIds (srv (run (addRoomIdsOnSecondInstance None) world_one_connection))
  ∧ run (addRoomIdsOnSecondInstance (Some "")) world_subordinate = world_subordinate
  ∧ emitted (addRoomIdsOnSecondInstance (Some "r3")) world_subordinate
    = [SocketEmit (CliSocket 0) "matchTarget" (PMatchTarget (Some "r3"))].
Proof.
  destruct (addRoomIds_behaviour None world_one_connection) as (_ & Hp & _).
  destruct (addRoomIds_behaviour (Some "") world_subordinate) as (_ & _ & Hf & _).
  destruct (addRoomIds_behaviour (Some "r3") world_subordinate)
    as (_ & _ & _ & Ht & _).
  split; [|split].
  - apply Hp. reflexivity.
  - apply Hf; [discriminate | reflexivity].
  - apply Ht; [discriminate | reflexivity].
Defined.

Lemma rooms_same_refl s : rooms_same s s.
Proof. done. Qed.

Lemma rooms_same_trans s1 s2 s3 :
  rooms_same s1 s2 → rooms_same s2 s3 → rooms_same s1 s3.
Proof. unfold rooms_same. congruence. Qed.

(** X9. [masterRoomIds] never holds a room id twice: every place that
    appends to it tests [indexOf] first, so a list without duplicates is
    still without duplicates after any method or handler. *)
Theorem masterRoomIds_distinct (o : operation) (w : World) :
  NoDup (masterRoomIds (srv w)) → NoDup (masterRoomIds (srv (run (exec o) w))).
Proof.
  intros Hnd.
  destruct o as [r| | | | |n| | | | | | | | | | | | | | | | | | |];
    try (match goal with
         | |- context [exec ?o] =>
             assert (keeps (srv_related rooms_same) (exec o)) as Hk
               by (simpl; unfold_handlers;
                   related_tac rooms_same_refl rooms_same_trans
                     ltac:(reflexivity));
             pose proof (Hk w) as E; unfold srv_related, rooms_same in E;
             by rewrite E
         end).
  - simpl. unfold run. rewrite addRoomIds_result. destruct w as [s ? ? ? ? ? ? ? ?].
    simpl. destruct (decide _); [|destruct (truthy r)]; simpl;
      try by apply add_room_NoDup. done.
  - simpl. unfold run. rewrite listening_result. destruct w; simpl.
    by apply merge_rooms_NoDup.
  - simpl. unfold run. rewrite uplink_connect_result. destruct w; simpl.
    by apply merge_rooms_NoDup.
Qed.

Lemma masterRoomIds_distinct_witness :
  NoDup (masterRoomIds (srv (run (exec (OpClientConnect 0)) world_child_rooms))).
Proof.
  apply (masterRoomIds_distinct (OpClientConnect 0) world_child_rooms).
  vm_compute. constructor.
Defined.

(** ** Claims of rooms, and the other ways of a message *)

Lemma matchTarget_result (id : string) (c : socket) (q : query) (r : jsv) (w : World) :
  sockets w !! id = Some c →
  handshake c = Some q →
  connection_on_matchTarget id r w
  = (Ok tt,
     if is_childServer q && truthy r then
       with_trace (λ t, t ++ [IoToEmit r "matched" (PMatched id)])
         (with_srv (λ s, set_clientTargetList
                           (obj_set (prop_key r) id (clientTargetList s)) s)
            (with_sockets
               (<[id := Socket (handshake c) (roomId c)
                          (Some (add_room (default [] (roomIds c)) r))]>) w))
     else w).
Proof.
  intros Hs Hh. unfold connection_on_matchTarget, with_socket.
  rewrite bind_run. unfold get at 1. cbv beta iota. rewrite Hs.
  unfold handshake_query. rewrite Hh. rewrite bind_run.
  unfold mret at 1, M_ret at 1. cbv beta iota. unfold when.
  destruct (is_childServer q && truthy r); [|reflexivity].
  unfold add_room. msimpl. reflexivity.
Qed.

(** X10. A claim ([matchTarget]) from a child server for a non-empty room
    id lists the room among the child's rooms (once, however often it claims
    it) and announces "matched" with the child's id to the room. For every
    room id but [__proto__] it makes that child the target of the room,
    whoever had it before, so that a read of the room's entry finds the
    child's id, and it leaves the targets of the other rooms alone. For the
    room id [__proto__] the assignment stores nothing: [clientTargetList]
    stays as it was, and a read of that entry still finds the inherited
    member. A claim from a connection that is not a child server, or for an
    empty or missing room id, is ignored: nothing changes and nothing is
    emitted. *)
Theorem matchTarget_claims_room
    (id : string) (c : socket) (q : query) (r : jsv) (w : World) :
  sockets w !! id = Some c →
  handshake c = Some q →
  let w' := run (connection_on_matchTarget id r) w in
  (is_childServer q = true → truthy r = true →
     (r ≠ Some "__proto__" →
        clientTargetList (srv w') !! prop_key r = Some id
        ∧ obj_get (clientTargetList (srv w')) (prop_key r) = Some (OwnValue id)
        ∧ (∀ k, k ≠ prop_key r →
             clientTargetList (srv w') !! k = clientTargetList (srv w) !! k))
     ∧ (r = Some "__proto__" →
        clientTargetList (srv w') = clientTargetList (srv w)
        ∧ (clientTargetList (srv w) !! "__proto__" = None →
           obj_get (clientTargetList (srv w')) (prop_key r)
           = Some (Inherited "__proto__")))
     ∧ (∃ c', sockets w' !! id = Some c' ∧ handshake c' = Some q
              ∧ roomId c' = roomId c
              ∧ (∀ x, x ∈ default [] (roomIds c')
                      ↔ x ∈ default [] (roomIds c) ∨ x = r)
              ∧ (NoDup (default [] (roomIds c)) → NoDup (default [] (roomIds c'))))
     ∧ emitted (connection_on_matchTarget id r) w
       = [IoToEmit r "matched" (PMatched id)])
  ∧ (is_childServer q = false ∨ truthy r = false → w' = w).
Proof.
  intros Hs Hh. simpl. unfold emitted, run.
  rewrite (matchTarget_result id c q r w Hs Hh).
  destruct w as [s sk ? ? ? ? ? ? tr]. simpl in *. split.
  - intros -> ->. simpl. split; [|split; [|split]].
    + intros Hr. unfold obj_get, obj_set.
      rewrite decide_False by (destruct r; simpl; congruence).
      rewrite lookup_insert_eq.
      split; [done|]. split; [done|]. intros k Hk; by apply lookup_insert_ne.
    + intros ->. unfold obj_get, obj_set.
      rewrite decide_True by done.
      split; [done|]. intros Hn.
      change (prop_key (Some "__proto__")) with "__proto__". rewrite Hn.
      by vm_compute.
    + eexists. split; [apply lookup_insert_eq|]. simpl.
      split; [done|]. split; [done|]. split; [apply add_room_elem|].
      apply add_room_NoDup.
    + by rewrite drop_app_length.
  - intros [-> | ->]; [done|]. by rewrite andb_false_r.
Qed.

Lemma matchTarget_claims_room_witness :
  clientTargetList (srv (run (connection_on_matchTarget "b" (Some "r5")) world_relay_claimed))
    !! "r5" = Some "b"
  ∧ clientTargetList
      (srv (run (connection_on_matchTarget "b" (Some "__proto__")) world_relay_claimed))
    = clientTargetList (srv world_relay_claimed)
  ∧ run (connection_on_matchTarget "c" (Some "r5")) world_relay_claimed
    = world_relay_claimed.
Proof.
  destruct (matchTarget_claims_room "b"
              (Socket (Some (Query (Some "true") None)) None (Some [Some "r2"]))
              (Query (Some "true") None) (Some "r5") world_relay_claimed)
    as [Hclaim _]; [vm_compute; reflexivity | reflexivity |].
  destruct (matchTarget_claims_room "b"
              (Socket (Some (Query (Some "true") None)) None (Some [Some "r2"]))
              (Query (Some "true") None) (Some "__proto__") world_relay_claimed)
    as [Hproto _]; [vm_compute; reflexivity | reflexivity |].
  destruct (matchTarget_claims_room "c"
              (Socket (Some (Query None (Some "r2"))) (Some "r2") None)
              (Query None (Some "r2")) (Some "r5") world_relay_claimed)
    as [_ Hignore]; [vm_compute; reflexivity | reflexivity |].
  destruct (Hclaim eq_refl eq_refl) as (Hother & _).
  destruct (Hother ltac:(discriminate)) as (Hown & _).
  destruct (Hproto eq_refl eq_refl) as (_ & Hp & _).
  destruct (Hp eq_refl) as [Hsame _].
  split; [exact Hown|]. split; [exact Hsame|].
  apply Hignore. left. reflexivity.
Defined.

(** X11. Claim, then route: once a child server (its socket id not empty)
    has claimed a room this process does not answer for, with a room id
    other than [__proto__], a message from a controller of that room (mode
    not single; the [init] statement, if it runs, does not throw: [data] is
    JSON for a value other than [null]) is emitted to that child server and
    to nobody else, whatever target the room had before the claim. *)
Theorem claim_then_forward
    (id id' : string) (c c' : socket) (q q' : query) (r : jsv)
    (m : message) (ack : bool) (w : World) :
  sockets w !! id = Some c → handshake c = Some q → is_childServer q = true →
  sockets w !! id' = Some c' → handshake c' = Some q' → is_childServer q' = false →
  roomId c' = r → truthy r = true → r ≠ Some "__proto__" → id ≠ "" →
  r ∉ masterRoomIds (srv w) →
  mode m ≠ ModeConst single →
  (action m = Some "init" → ∃ name, data m = ParsedName name) →
  let w1 := run (connection_on_matchTarget id r) w in
  outcome (connection_on_message id' m ack) w1 = Ok tt
  ∧ filter is_delivery (emitted (connection_on_message id' m ack) w1)
    = [IoToEmit (Some id) "message" (PMessage m)].
Proof.
  intros Hs Hh Hq Hs' Hh' Hq' Hr Ht Hproto Hid Hm Hmode Hinit. simpl.
  assert (id ≠ id') as Hne by (intros <-; congruence).
  assert (run (connection_on_matchTarget id r) w
          = with_trace (λ t, t ++ [IoToEmit r "matched" (PMatched id)])
              (with_srv (λ s, set_clientTargetList
                                (obj_set (prop_key r) id (clientTargetList s)) s)
                 (with_sockets
                    (<[id := Socket (handshake c) (roomId c)
                               (Some (add_room (default [] (roomIds c)) r))]>) w)))
    as ->.
  { unfold run. by rewrite (matchTarget_result id c q r w Hs Hh), Hq, Ht. }
  destruct (message_routed_to_target id' c' q' id m ack
              (with_trace (λ t, t ++ [IoToEmit r "matched" (PMatched id)])
                 (with_srv (λ s, set_clientTargetList
                                   (obj_set (prop_key r) id (clientTargetList s)) s)
                    (with_sockets
                       (<[id := Socket (handshake c) (roomId c)
                                  (Some (add_room (default [] (roomIds c)) r))]>) w))))
    as (Ho & Hd & _); try done.
  - destruct w; simpl in *. by rewrite lookup_insert_ne.
  - destruct w; simpl in *. rewrite Hr. unfold obj_set.
    rewrite decide_False by (destruct r; simpl; congruence).
    apply lookup_insert_eq.
  - destruct w; simpl in *. by rewrite Hr.
Qed.

Lemma claim_then_forward_witness :
  filter is_delivery
    (emitted (connection_on_message "c" (init_arduino ModeOther) false)
       (run (connection_on_matchTarget "b" (Some "r2")) world_relay_claimed))
  = [IoToEmit (Some "b") "message" (PMessage (init_arduino ModeOther))].
Proof.
  apply (claim_then_forward "b" "c"
           (Socket (Some (Query (Some "true") None)) None (Some [Some "r2"]))
           (Socket (Some (Query None (Some "r2"))) (Some "r2") None)
           (Query (Some "true") None) (Query None (Some "r2")) (Some "r2")
           (init_arduino ModeOther) false world_relay_claimed).
  - vm_compute. reflexivity.
  - reflexivity.
  - reflexivity.
  - vm_compute. reflexivity.
  - reflexivity.
  - reflexivity.
  - reflexivity.
  - reflexivity.
  - discriminate.
  - discriminate.
  - apply indexOf_not_elem. vm_compute. reflexivity.
  - discriminate.
  - intros _. by eexists.
Defined.

Lemma with_trace_nil_eq {A} (a : A) (W : World) :
  (mret a : M A) W = (Ok a, with_trace (λ t, t ++ []) W).
Proof. destruct W; unfold mret, M_ret, with_trace; simpl. by rewrite app_nil_r. Qed.

Lemma filter_fanout (l : list jsv) (p : payload) :
  filter is_delivery (map (λ r, IoToEmit r "message" p) l)
  = map (λ r, IoToEmit r "message" p) l
  ∧ filter is_ack (map (λ r, IoToEmit r "message" p) l) = [].
Proof.
  induction l as [|r l [IH1 IH2]]; [done|]. simpl. split.
  - rewrite filter_cons. simpl. by rewrite IH1.
  - rewrite filter_cons. simpl. exact IH2.
Qed.

Lemma message_forwarded
    (id : string) (c : socket) (q : query) (m : message) (ack : bool) (w : World) :
  sockets w !! id = Some c →
  handshake c = Some q →
  roomId c ∉ masterRoomIds (srv w) →
  mode m ≠ ModeConst single →
  (action m = Some "init" → ∃ name, data m = ParsedName name) →
  outcome (connection_on_message id m ack) w = Ok tt
  ∧ filter is_delivery (emitted (connection_on_message id m ack) w)
    = forward_destinations (srv w) c q m
  ∧ filter is_ack (emitted (connection_on_message id m ack) w)
    = ack_effects m ack.
Proof.
  intros Hs Hh Hr Hm Hinit.
  assert (bool_decide (mode m = ModeConst single)
          || bool_decide (indexOf (roomId c) (masterRoomIds (srv w)) >= 0) = false)
    as Hcond.
  { apply orb_false_iff. split; apply bool_decide_eq_false; [done|].
    by rewrite indexOf_ge_elem. }
  pose proof (filter_fanout (default [] (roomIds c)) (PMessage m)) as [Hf1 Hf2].
  unfold emitted, outcome, run, connection_on_message, with_socket,
    forward_destinations.
  destruct w as [s sk ? ? ? ? ? ? tr]. simpl in *. msimpl. rewrite Hs. msimpl.
  match goal with
  | |- context [message_init m ?W] =>
      destruct (message_init_ok m W Hinit) as (l & -> & Hl & Hl')
  end.
  simpl. msimpl. rewrite Hcond. unfold handshake_query. rewrite Hh. msimpl.
  destruct (is_childServer q).
  - assert (∀ W, match roomIds c with
                 | Some rs =>
                     when (bool_decide (Z.of_nat (length rs) > 0))
                       (forEach rs (λ roomId,
                          call (IoToEmit roomId "message" (PMessage m))))
                 | None => mret tt
                 end W
                 = (Ok tt,
                    with_trace (λ t, t ++ map (λ r, IoToEmit r "message" (PMessage m))
                                           (default [] (roomIds c))) W)) as ->.
    { intros W. destruct (roomIds c) as [rs|]; simpl.
      - unfold when.
        destruct (bool_decide (Z.of_nat (length rs) > 0)) eqn:Hlen;
          [apply forEach_call|].
        apply bool_decide_eq_false in Hlen.
        destruct rs; [|simpl in Hlen; lia]. apply with_trace_nil_eq.
      - apply with_trace_nil_eq. }
    destruct ack; simpl; unfold call, mret, M_ret, with_trace; simpl;
      (split; [reflexivity|]);
      rewrite <- ?app_assoc, drop_app_length, !filter_app, Hl, Hl', Hf1, Hf2;
      simpl; rewrite ?app_nil_r; split; reflexivity.
  - destruct (obj_get (clientTargetList s) (prop_key (roomId c))) as [t|]; simpl.
    + destruct t as [v|k]; simpl; [destruct (bool_decide (v ≠ ""))|]; msimpl;
        destruct ack; simpl; unfold call, mret, M_ret, with_trace; simpl;
        (split; [reflexivity|]);
        rewrite <- ?app_assoc, drop_app_length, !filter_app, Hl, Hl';
        split; reflexivity.
    + destruct ack; simpl; unfold call, mret, M_ret, with_trace; simpl;
        (split; [reflexivity|]);
        rewrite <- ?app_assoc, drop_app_length, !filter_app, Hl, Hl';
        split; reflexivity.
Qed.

(** X12. A message from a child server that this process does not answer
    for (mode not single, the connection's [roomId] not in [masterRoomIds];
    the [init] statement, if it runs, does not throw: [data] is JSON for a
    value other than [null]) is emitted to every room the child has claimed,
    in the order of the claims, and to nobody else; a child that has claimed
    no room reaches nobody. The sender is acknowledged, with the message's
    [key] or [true], when it passed a callback. *)
Theorem relay_message_fans_out
    (id : string) (c : socket) (q : query) (m : message) (ack : bool) (w : World) :
  sockets w !! id = Some c →
  handshake c = Some q →
  is_childServer q = true →
  roomId c ∉ masterRoomIds (srv w) →
  mode m ≠ ModeConst single →
  (action m = Some "init" → ∃ name, data m = ParsedName name) →
  outcome (connection_on_message id m ack) w = Ok tt
  ∧ filter is_delivery (emitted (connection_on_message id m ack) w)
    = map (λ r, IoToEmit r "message" (PMessage m)) (default [] (roomIds c))
  ∧ filter is_ack (emitted (connection_on_message id m ack) w)
    = ack_effects m ack.
Proof.
  intros Hs Hh Hq Hr Hm Hinit.
  destruct (message_forwarded id c q m ack w Hs Hh Hr Hm Hinit) as (Ho & Hd & Ha).
  unfold forward_destinations in Hd. rewrite Hq in Hd. done.
Qed.

Lemma relay_message_fans_out_witness :
  filter is_delivery
    (emitted (connection_on_message "b" (init_arduino ModeOther) true)
       world_relay_claimed)
  = [IoToEmit (Some "r2") "message" (PMessage (init_arduino ModeOther))].
Proof.
  apply (relay_message_fans_out "b"
           (Socket (Some (Query (Some "true") None)) None (Some [Some "r2"]))
           (Query (Some "true") None) (init_arduino ModeOther) true
           world_relay_claimed).
  - vm_compute. reflexivity.
  - reflexivity.
  - reflexivity.
  - apply indexOf_not_elem. vm_compute. reflexivity.
  - discriminate.
  - intros _. by eexists.
Defined.

(** X13. A message from a controller whose room this process does not
    answer for and for which [clientTargetList] has no entry (mode not
    single; the [init] statement, if it runs, does not throw: [data] is JSON
    for a value other than [null]). The handler returns normally and
    acknowledges the sender when it passed a callback. If the room id is not
    the name of a member of [Object.prototype], the message is dropped: it
    is handed to no destination, neither the local router nor any room or
    connection. If it is such a name ([constructor], [toString],
    [__proto__], ...), the read of the entry finds the inherited member,
    and the message is emitted once, addressed to that member. *)
Theorem unrouted_message_dropped
    (id : string) (c : socket) (q : query) (m : message) (ack : bool) (w : World) :
  sockets w !! id = Some c →
  handshake c = Some q →
  is_childServer q = false →
  clientTargetList (srv w) !! prop_key (roomId c) = None →
  roomId c ∉ masterRoomIds (srv w) →
  mode m ≠ ModeConst single →
  (action m = Some "init" → ∃ name, data m = ParsedName name) →
  outcome (connection_on_message id m ack) w = Ok tt
  ∧ (prop_key (roomId c) ∉ object_prototype_keys →
     filter is_delivery (emitted (connection_on_message id m ack) w) = [])
  ∧ (prop_key (roomId c) ∈ object_prototype_keys →
     filter is_delivery (emitted (connection_on_message id m ack) w)
     = [IoToInheritedEmit (prop_key (roomId c)) "message" (PMessage m)])
  ∧ filter is_ack (emitted (connection_on_message id m ack) w)
    = ack_effects m ack.
Proof.
  intros Hs Hh Hq Ht Hr Hm Hinit.
  destruct (message_forwarded id c q m ack w Hs Hh Hr Hm Hinit) as (Ho & Hd & Ha).
  unfold forward_destinations, obj_get in Hd. rewrite Hq, Ht in Hd.
  split; [done|]. split; [|split; [|done]]; intros Hk.
  - by rewrite bool_decide_eq_false_2 in Hd.
  - by rewrite bool_decide_eq_true_2 in Hd.
Qed.

Lemma unrouted_message_dropped_witness :
  filter is_delivery
    (emitted (connection_on_message "a" (init_arduino ModeOther) true)
       world_unclaimed_room)
  = []
  ∧ filter is_ack
      (emitted (connection_on_message "a" (init_arduino ModeOther) true)
         world_unclaimed_room)
    = [Ack (AckKey "k1")]
  ∧ filter is_delivery
      (emitted (connection_on_message "a" (init_arduino ModeOther) true)
         world_inherited_room)
    = [IoToInheritedEmit "constructor" "message" (PMessage (init_arduino ModeOther))].
Proof.
  destruct (unrouted_message_dropped "a"
              (Socket (Some (Query None (Some "r7"))) (Some "r7") None)
              (Query None (Some "r7")) (init_arduino ModeOther) true
              world_unclaimed_room) as (_ & Hd & _ & Ha).
  - vm_compute. reflexivity.
  - reflexivity.
  - reflexivity.
  - vm_compute. reflexivity.
  - apply indexOf_not_elem. vm_compute. reflexivity.
  - discriminate.
  - intros _. by eexists.
  - destruct (unrouted_message_dropped "a"
                (Socket (Some (Query None (Some "constructor")))
                   (Some "constructor") None)
                (Query None (Some "constructor")) (init_arduino ModeOther) true
                world_inherited_room) as (_ & _ & Hi & _).
    + vm_compute. reflexivity.
    + reflexivity.
    + reflexivity.
    + vm_compute. reflexivity.
    + apply indexOf_not_elem. vm_compute. reflexivity.
    + discriminate.
    + intros _. by eexists.
    + split; [apply Hd|split; [exact Ha|apply Hi]].
      * apply (bool_decide_unpack _). vm_compute. exact I.
      * simpl. apply list_elem_of_here.
Defined.

Lemma message_local
    (id : string) (c : socket) (m : message) (ack : bool) (w : World) :
  sockets w !! id = Some c →
  (action m = Some "init" → ∃ name, data m = ParsedName name) →
  roomId c ∈ masterRoomIds (srv w) →
  outcome (connection_on_message id m ack) w = Ok tt
  ∧ filter is_delivery (emitted (connection_on_message id m ack) w)
    = [RouterHandleServerData (PMessage m)].
Proof.
  intros Hs Hinit Hauth.
  assert (bool_decide (mode m = ModeConst single)
          || bool_decide (indexOf (roomId c) (masterRoomIds (srv w)) >= 0) = true)
    as Hcond.
  { apply orb_true_iff. right. apply bool_decide_eq_true. by apply indexOf_ge_elem. }
  unfold emitted, outcome, run, connection_on_message, with_socket.
  destruct w as [s sk ? ? ? ? ? ? tr]. simpl in *. msimpl. rewrite Hs. msimpl.
  match goal with
  | |- context [message_init m ?W] =>
      destruct (message_init_ok m W Hinit) as (l & -> & Hl & Hl')
  end.
  simpl. msimpl. rewrite Hcond. msimpl.
  destruct ack; simpl; unfold call, mret, M_ret, with_trace; simpl;
    (split; [reflexivity|]);
    rewrite <- ?app_assoc, drop_app_length, !filter_app, Hl; reflexivity.
Qed.

(** X14. On a parent, [addRoomIdsOnSecondInstance] called without a room id
    puts the missing id itself into [masterRoomIds]. From then on every
    message that comes in on a connection without [roomId], as all
    connections of child servers are, and whose [init] statement, if it
    runs, does not throw ([data] is JSON for a value other than [null]), is
    handed to the local router instead of the rooms the child has claimed,
    whatever its mode. *)
Theorem missing_room_id_captures_relays
    (id : string) (c : socket) (m : message) (ack : bool) (w : World) :
  runningMode (srv w) = parent →
  sockets w !! id = Some c →
  roomId c = None →
  (action m = Some "init" → ∃ name, data m = ParsedName name) →
  let w1 := run (addRoomIdsOnSecondInstance None) w in
  outcome (connection_on_message id m ack) w1 = Ok tt
  ∧ filter is_delivery (emitted (connection_on_message id m ack) w1)
    = [RouterHandleServerData (PMessage m)].
Proof.
  intros Hp Hs Hr Hinit. simpl.
  apply (message_local id c).
  - unfold run. rewrite addRoomIds_result. rewrite decide_True by done.
    by destruct w.
  - done.
  - unfold run. rewrite addRoomIds_result. rewrite decide_True by done.
    destruct w; simpl. rewrite Hr. apply add_room_elem. by right.
Qed.

Lemma missing_room_id_captures_relays_witness :
  filter is_delivery
    (emitted (connection_on_message "b" (init_arduino ModeOther) true)
       (run (addRoomIdsOnSecondInstance None) world_relay_claimed))
  = [RouterHandleServerData (PMessage (init_arduino ModeOther))].
Proof.
  apply (missing_room_id_captures_relays "b"
           (Socket (Some (Query (Some "true") None)) None (Some [Some "r2"]))
           (init_arduino ModeOther) true world_relay_claimed).
  - reflexivity.
  - vm_compute. reflexivity.
  - reflexivity.
  - intros _. by eexists.
Defined.

(** ** Connections that come and go on the hub *)

Lemma connection_register_early (id : string) (hs : option query) (w : World) :
  sender w = None ∨ hs = None →
  ∃ e, connection_register id hs w
       = (Throw e,
          with_trace
            (λ t, t ++ SelfEmit "connection"
                       :: match sender w with
                          | Some _ => [SenderSend "console"
                                         ["%cEntry connected."; "color: dodgerblue"]]
                          | None => []
                          end)
            (with_srv (λ s, set_connections (connections s ++ [SrvSocket id])
                              (set_connectionSet
                                 (<[id := SrvSocket id]> (connectionSet s)) s)) w)).
Proof.
  intros Hearly. destruct w as [s ? ? ? ? sd ? ? tr]. simpl in *.
  destruct sd as [u|].
  - destruct Hearly as [?| ->]; [done|].
    unfold connection_register, rendererConsole.info, rendererConsole.send,
      handshake_query, call, throw. msimpl. eexists.
    unfold with_trace, with_srv. simpl. by rewrite <- app_assoc.
  - unfold connection_register, rendererConsole.info, rendererConsole.send,
      call, throw. msimpl. eexists. reflexivity.
Qed.

(** X15. When the console has no sender yet, or the socket comes without a
    handshake, the [connection] handler throws half-way: the socket is
    already in the connections list and in [connectionSet] and "connection"
    has been emitted, but none of the socket's handlers is registered, a
    child server is not counted, no room is joined, no mode is announced
    and the display mode is left as it was. *)
Theorem connection_aborts_half_way (id : string) (hs : option query) (w : World) :
  sender w = None ∨ hs = None →
  let w' := run (server_on_connection id hs) w in
  (∃ e, outcome (server_on_connection id hs) w = Throw e)
  ∧ connections (srv w') = connections (srv w) ++ [SrvSocket id]
  ∧ connectionSet (srv w') = <[id := SrvSocket id]> (connectionSet (srv w))
  ∧ sockets w' = sockets w
  ∧ childServerList (srv w') = childServerList (srv w)
  ∧ currentServerMode (srv w') = currentServerMode (srv w)
  ∧ emitted (server_on_connection id hs) w
    = SelfEmit "connection"
      :: match sender w with
         | Some _ => [SenderSend "console" ["%cEntry connected."; "color: dodgerblue"]]
         | None => []
         end.
Proof.
  intros Hearly. destruct (connection_register_early id hs w Hearly) as [e He].
  simpl. unfold emitted, outcome, run, server_on_connection.
  rewrite bind_run, He. destruct w as [s ? ? ? ? ? ? ? ?]; destruct s. simpl.
  split; [by eexists|]. rewrite drop_app_length. by repeat split.
Qed.

Lemma connection_aborts_half_way_witness :
  sockets (run (server_on_connection "z" (Some (Query (Some "true") None)))
             world_silent_console)
  = sockets world_silent_console
  ∧ childServerList
      (srv (run (server_on_connection "z" (Some (Query (Some "true") None)))
              world_silent_console))
    = childServerList (srv world_silent_console).
Proof.
  destruct (connection_aborts_half_way "z" (Some (Query (Some "true") None))
              world_silent_console) as (_ & _ & _ & Hs & Hc & _).
  - left. reflexivity.
  - split; [exact Hs | exact Hc].
Defined.

(** X16. The [close] handler of a connection closes nothing: it hands the
    server object itself to [closeSingleConnection], which finds no such
    entry in the connections list. With the console set up the handler
    writes its warning and emits "close", and that is all: no socket is
    closed and the world is otherwise as before. *)
Theorem close_handler_closes_nothing (id : string) (c : socket) (w : World) :
  sockets w !! id = Some c →
  is_Some (sender w) →
  connection_on_close id w
  = (Ok tt,
     with_trace (λ t, t ++ [SenderSend "console"
                              ["%cEntry disconnected."; "color: orange"];
                            SelfEmit "close"]) w).
Proof.
  intros Hs [u Hu]. destruct w as [s sk ? ? ? sd ? ? tr]. simpl in *. subst sd.
  unfold connection_on_close, with_socket, rendererConsole.warn,
    rendererConsole.send, closeSingleConnection.
  msimpl. rewrite Hs. msimpl. unfold mret, M_ret, with_trace. simpl.
  by rewrite <- app_assoc.
Qed.

Lemma close_handler_closes_nothing_witness :
  connection_on_close "a" world_one_connection
  = (Ok tt,
     with_trace (λ t, t ++ [SenderSend "console"
                              ["%cEntry disconnected."; "color: orange"];
                            SelfEmit "close"]) world_one_connection).
Proof.
  apply (close_handler_closes_nothing "a"
           (Socket (Some (Query None (Some "r1"))) (Some "r1") None)
           world_one_connection).
  - vm_compute. reflexivity.
  - exists tt. reflexivity.
Defined.

(** ** [close], [send] and [setState] at their edges *)

Lemma close_result (w : World) :
  close w
  = (Ok tt,
     with_trace (λ t, t ++ match socketServer (srv w) with
                           | Some _ => [IoClose]
                           | None => []
                           end
                        ++ match httpServer (srv w) with
                           | Some _ => [HttpClose]
                           | None => []
                           end
                        ++ [SelfEmit "closed"])
       (with_srv (λ s, set_connections []
                         (set_httpServer None (set_socketServer None s))) w)).
Proof.
  destruct w as [s ? ? ? ? ? ? ? tr]. unfold close. msimpl.
  destruct (socketServer s) as [[]|] eqn:Hss; simpl; msimpl;
    destruct (httpServer s) as [[]|] eqn:Hhs; simpl; msimpl;
    unfold call, with_trace, with_srv; simpl; rewrite <- ?app_assoc;
    destruct s; simpl in *; by subst.
Qed.

(** X17. [close()] closes the socket.io server and the http server if they
    are there, forgets them, empties the connections list and emits
    "closed". It keeps everything else: [connectionSet], [childServerList],
    [clientTargetList], [masterRoomIds], the modes, the packet and the state
    name survive. A second [close()] only emits "closed" again; and after
    [close()], [setState] sends nothing and does not write the packet. *)
Theorem close_releases_transport (w : World) (st : jsv) :
  let w' := run close w in
  outcome close w = Ok tt
  ∧ connections (srv w') = []
  ∧ socketServer (srv w') = None ∧ httpServer (srv w') = None
  ∧ connectionSet (srv w') = connectionSet (srv w)
  ∧ childServerList (srv w') = childServerList (srv w)
  ∧ clientTargetList (srv w') = clientTargetList (srv w)
  ∧ masterRoomIds (srv w') = masterRoomIds (srv w)
  ∧ runningMode (srv w') = runningMode (srv w)
  ∧ currentServerMode (srv w') = currentServerMode (srv w)
  ∧ packet (srv w') = packet (srv w) ∧ state (srv w') = state (srv w)
  ∧ close w' = (Ok tt, with_trace (λ t, t ++ [SelfEmit "closed"]) w')
  ∧ setState st w' = (Ok tt, with_srv (set_state st) w').
Proof.
  simpl. unfold outcome, run. rewrite close_result.
  destruct w as [s ? ? ? ? ? ? ? tr];
    destruct s as [? ? ? ? ? ? ? ? ? ? ? ss hs ?]. simpl.
  by repeat split.
Qed.

(** X18. [send] cannot reach the rooms without the socket.io server: on a
    parent that still counts child servers and has room ids in
    [masterRoomIds] but no [socketServer] (as [close()] leaves it while the
    child servers have not been taken off the list), [send] throws a
    TypeError at the first room; nothing has been emitted and the server is
    unchanged. *)
Theorem send_without_socket_server (p : payload) (w : World) :
  ¬ direct_mode (srv w) →
  socketServer (srv w) = None →
  masterRoomIds (srv w) ≠ [] →
  send p w = (Throw (TypeError "Cannot read property 'to' of undefined"), w).
Proof.
  intros Hd Hs Hm. unfold send. rewrite bind_run. unfold this at 1. cbv beta iota.
  assert (bool_decide (runningMode (srv w) = parent)
          && bool_decide (keys_length (childServerList (srv w)) = 0)
          || bool_decide (runningMode (srv w) = child) = false) as ->.
  { apply not_true_is_false. intros H. apply Hd. unfold direct_mode.
    apply orb_true_iff in H as [H|H].
    - apply andb_true_iff in H as [H1 H2].
      apply bool_decide_eq_true in H1, H2. unfold keys_length in H2.
      left. split; [done | lia].
    - apply bool_decide_eq_true in H. by right. }
  destruct (masterRoomIds (srv w)) as [|r rs]; [done|].
  unfold when. rewrite bool_decide_eq_true_2 by (simpl; lia).
  cbn [forEach]. rewrite !bind_run. unfold this at 1. cbv beta iota.
  rewrite Hs. reflexivity.
Qed.

Lemma send_without_socket_server_witness :
  outcome disconnectHardware (run close world_relay_claimed)
  = Throw (TypeError "Cannot read property 'to' of undefined").
Proof.
  unfold outcome, disconnectHardware.
  rewrite (send_without_socket_server PDisconnectHardware
             (run close world_relay_claimed)); [reflexivity | | | ].
  - intros [[_ H]|H]; vm_compute in H; discriminate H.
  - vm_compute. reflexivity.
  - vm_compute. discriminate.
Defined.

(** X19. [setState] with anything but one of the four state names (also
    with no name at all, as the [connection] handler passes before a state
    was ever set) only records the value: the packet is not written and
    nothing is sent, whatever connections there are. *)
Theorem setState_unknown_name (st : jsv) (w : World) :
  (∀ name, st = Some name → state_code name = None) →
  setState st w = (Ok tt, with_srv (set_state st) w).
Proof.
  intros Hname. unfold setState. msimpl. unfold when.
  destruct (bool_decide _); [|reflexivity].
  assert (∀ n c, state_code n = Some c → st ≠ Some n) as Hne.
  { intros n c Hc ->. by rewrite (Hname n) in Hc. }
  rewrite !decide_False; [reflexivity|..]; by eapply Hne.
Qed.

Lemma setState_unknown_name_witness :
  setState None world_one_connection
  = (Ok tt, with_srv (set_state None) world_one_connection)
  ∧ setState (Some "paused") world_one_connection
    = (Ok tt, with_srv (set_state (Some "paused")) world_one_connection).
Proof.
  split.
  - apply (setState_unknown_name None world_one_connection). discriminate.
  - apply (setState_unknown_name (Some "paused") world_one_connection).
    intros name [= <-]. reflexivity.
Defined.

(** Evaluate the updates of a world from the inside out. *)
Ltac world_eval :=
  cbv [with_sockets with_trace with_srv with_next_client with_client_modes
       srv sockets client_modes next_client router_roomIds sender sharedObject
       ssl_cert trace
       set_packet set_connections set_connectionSet set_childServerList
       set_clientTargetList set_runningMode set_currentServerMode
       set_masterRoomIds set_clientRoomId set_socketClient set_socketServer
       set_httpServer set_state
       packet connections connectionSet roomCnt childServerList
       clientTargetList runningMode currentServerMode masterRoomIds
       clientRoomId socketClient socketServer httpServer state].

Lemma setState_sends (name : string) (code : Z) (w : World) :
  state_code name = Some code →
  connections (srv w) ≠ [] →
  setState (Some name) w
  = send (PData (<[3%nat := code]> (packet (srv w))))
      (with_srv (λ s, set_packet (<[3%nat := code]> (packet s))
                        (set_state (Some name) s)) w).
Proof.
  intros Hcode Hconn. destruct w as [s ? ? ? ? ? ? ? ?].
  destruct s as [pkt conns ? ? ? ? ? ? ? ? ? ? ? ?]. simpl in *.
  unfold setState. msimpl.
  rewrite bool_decide_eq_true_2 by (destruct conns; [done | simpl; lia]).
  unfold when.
  apply state_code_cases in Hcode as [[-> ->]|[[-> ->]|[[-> ->]|[-> ->]]]];
    simpl; unfold send_packet; msimpl; reflexivity.
Qed.

(** The [connection] handler up to the registration of the socket's
    handlers, when console and handshake are there. *)
Lemma connection_register_result (id : string) (q : query) (w : World) :
  is_Some (sender w) →
  let cs := if is_childServer q
            then <[id := true]> (childServerList (srv w))
            else childServerList (srv w) in
  let md := mode_of_count (size cs) in
  connection_register id (Some q) w
  = (Ok tt,
     with_sockets
       (<[id := Socket (Some q) (if is_childServer q then None else q_roomId q) None]>)
       (with_trace
          (λ t, t ++ [SelfEmit "connection";
                      SenderSend "console" ["%cEntry connected."; "color: dodgerblue"]]
                  ++ (if is_childServer q then []
                      else [SocketJoin (SrvSocket id) (q_roomId q)])
                  ++ [IoEmit "mode" (PMode md); RouterNotifyServerMode md])
          (with_srv
             (λ s, set_currentServerMode md
                     (set_childServerList cs
                        (set_connections (connections s ++ [SrvSocket id])
                           (set_connectionSet
                              (<[id := SrvSocket id]> (connectionSet s)) s))))
             w))).
Proof.
  intros [u Hu]. destruct w as [s sk ? ? ? sd ? ? tr]. simpl in Hu. subst sd.
  simpl. unfold connection_register, rendererConsole.info,
    rendererConsole.send, handshake_query, mode_of_count, keys_length.
  msimpl.
  destruct (is_childServer q); msimpl; case_bool_decide as Hc;
    msimpl; unfold toggleServerMode; msimpl;
    unfold update_sockets;
    [rewrite !decide_True by lia | rewrite !decide_False by lia
    |rewrite !decide_True by lia | rewrite !decide_False by lia];
    clear Hc; destruct s; world_eval; by rewrite <- ?app_assoc.
Qed.

Lemma filter_direct (l : list sockref) (p : payload) :
  filter is_delivery (map (λ c, SocketEmit c "message" p) l)
  = map (λ c, SocketEmit c "message" p) l.
Proof.
  induction l as [|c l IH]; [done|]. simpl. rewrite filter_cons. simpl.
  by rewrite IH.
Qed.

(** X20. Every new controller makes the hub send its state again: when a
    connection that is not a child server arrives at a parent without child
    servers whose last state name is one of the four, the handler writes
    that state's code into the packet and emits the packet to every socket
    of the connections list, the old ones and the new one; these are the
    only messages the handler emits. *)
Theorem connect_replays_state
    (id : string) (q : query) (name : string) (code x : Z) (w : World) :
  is_Some (sender w) →
  state (srv w) = Some name →
  state_code name = Some code →
  packet (srv w) = [0x01; 0x00; 0x00; x] →
  runningMode (srv w) = parent →
  childServerList (srv w) = ∅ →
  is_childServer q = false →
  let w' := run (server_on_connection id (Some q)) w in
  outcome (server_on_connection id (Some q)) w = Ok tt
  ∧ filter is_delivery (emitted (server_on_connection id (Some q)) w)
    = map (λ c, SocketEmit c "message" (PData [0x01; 0x00; 0x00; code]))
        (connections (srv w) ++ [SrvSocket id])
  ∧ packet (srv w') = [0x01; 0x00; 0x00; code].
Proof.
  intros Hsd Hst Hcode Hpkt Hrm Hcs Hq. simpl.
  unfold emitted, outcome, run, server_on_connection.
  rewrite bind_run, (connection_register_result id q w Hsd), Hq, Hcs.
  rewrite bind_run. unfold this at 1. cbv beta iota.
  destruct w as [s sk ? ? ? sd ? ? tr].
  destruct s as [pkt conns ? ? csl ? rm ? ? ? ? ? ? st]. simpl in *. subst.
  rewrite (setState_sends name code) by (simpl; by destruct conns).
  rewrite send_direct by (left; split; [done | simpl; apply map_size_empty]).
  simpl. split; [done|]. split; [|done].
  rewrite <- !app_assoc, drop_app_length, !filter_app, filter_direct.
  reflexivity.
Qed.

Lemma connect_replays_state_witness :
  filter is_delivery
    (emitted (server_on_connection "e" (Some (Query None (Some "r1"))))
       (run (setState (Some "connected")) world_one_connection))
  = [SocketEmit (SrvSocket "a") "message" (PData [0x01; 0x00; 0x00; 0x02]);
     SocketEmit (SrvSocket "e") "message" (PData [0x01; 0x00; 0x00; 0x02])].
Proof.
  apply (connect_replays_state "e" (Query None (Some "r1")) "connected" 0x02 0x02
           (run (setState (Some "connected")) world_one_connection)).
  - exists tt. vm_compute. reflexivity.
  - vm_compute. reflexivity.
  - reflexivity.
  - vm_compute. reflexivity.
  - vm_compute. reflexivity.
  - vm_compute. reflexivity.
  - reflexivity.
Defined.

(** ** The two registers of connections *)

Lemma conns_same_refl s : conns_same s s.
Proof. done. Qed.

Lemma conns_same_trans s1 s2 s3 :
  conns_same s1 s2 → conns_same s2 s3 → conns_same s1 s3.
Proof. unfold conns_same. congruence. Qed.

Lemma registry_same_refl s : registry_same s s.
Proof. done. Qed.

Lemma registry_same_trans s1 s2 s3 :
  registry_same s1 s2 → registry_same s2 s3 → registry_same s1 s3.
Proof. unfold registry_same. intros [-> ->] [-> ->]. done. Qed.

Lemma setState_registry_same (st : jsv) :
  keeps (srv_related registry_same) (setState st).
Proof.
  unfold setState, send_packet, send.
  related_tac registry_same_refl registry_same_trans ltac:(by split).
Qed.

Lemma disconnect_conns_same (id : string) :
  keeps (srv_related conns_same) (connection_on_disconnect id).
Proof.
  unfold connection_on_disconnect, with_socket, toggleServerMode.
  related_tac conns_same_refl conns_same_trans ltac:(reflexivity).
Qed.

Lemma connection_aborts_registers (id : string) (hs : option query) (w : World) :
  sender w = None ∨ hs = None →
  connections (srv (run (server_on_connection id hs) w))
  = connections (srv w) ++ [SrvSocket id]
  ∧ connectionSet (srv (run (server_on_connection id hs) w))
    = <[id := SrvSocket id]> (connectionSet (srv w)).
Proof.
  intros Hearly. destruct (connection_register_early id hs w Hearly) as [e He].
  unfold run, server_on_connection. rewrite bind_run, He.
  by destruct w as [s ? ? ? ? ? ? ? ?]; destruct s.
Qed.

Lemma run_bind_ok {A B} (m : M A) (k : A → M B) (w w1 : World) (a : A) :
  m w = (Ok a, w1) → run (m ≫= k) w = run (k a) w1.
Proof. intros E. unfold run. by rewrite bind_run, E. Qed.

Lemma connection_registers (id : string) (hs : option query) (w : World) :
  let w' := run (server_on_connection id hs) w in
  connections (srv w') = connections (srv w) ++ [SrvSocket id]
  ∧ connectionSet (srv w') = <[id := SrvSocket id]> (connectionSet (srv w)).
Proof.
  cbv zeta.
  destruct (sender w) as [u|] eqn:Hsd; [destruct hs as [q|]|].
  - assert (is_Some (sender w)) as Hs by by rewrite Hsd.
    pose proof (connection_register_result id q w Hs) as E. cbv zeta in E.
    unfold server_on_connection.
    rewrite (run_bind_ok _ _ _ _ _ E).
    match goal with
    | |- context [run (this ≫= ?k) ?W] =>
        rewrite (run_bind_ok this k W W (srv W) eq_refl);
        destruct (setState_registry_same (state (srv W)) W) as [E1 E2]
    end.
    rewrite E1, E2. clear.
    by destruct w as [s ? ? ? ? ? ? ? ?]; destruct s.
  - destruct (connection_aborts_registers id None w) as (H1 & H2); [by right|].
    done.
  - destruct (connection_aborts_registers id hs w) as (H1 & H2); [by left|].
    done.
Qed.

(** X21. The connections list keeps every socket that ever connected: after
    any sequence of connect and disconnect events on any server, the list is
    the list from before followed by the sockets of all the connect events,
    in order, the disconnected ones included (and also the ones whose
    [connection] handler threw). *)
Theorem connections_list_keeps_everyone (evs : list hub_event) (w : World) :
  connections (srv (run_events evs w))
  = connections (srv w) ++ connected_sockets evs.
Proof.
  revert w. induction evs as [|e evs IH]; intros w; simpl.
  - by rewrite app_nil_r.
  - rewrite IH. destruct e as [id q|id]; simpl.
    + destruct (connection_registers id (Some q) w) as [-> _].
      by rewrite <- app_assoc.
    + by rewrite (disconnect_conns_same id w).
Qed.

Lemma disconnect_connectionSet (id : string) (c : socket) (w : World) :
  sockets w !! id = Some c →
  connectionSet (srv (run (connection_on_disconnect id) w))
  = delete id (connectionSet (srv w)).
Proof.
  intros Hs. unfold run.
  destruct (handshake c) as [q|] eqn:Hh; [destruct (is_childServer q) eqn:Hq|].
  - rewrite (disconnect_relay id c q w Hs Hh Hq). cbv zeta.
    destruct (bool_decide _); by destruct w as [s ? ? ? ? ? ? ? ?]; destruct s.
  - rewrite (disconnect_controller id c w Hs) by (intros; congruence).
    by destruct w as [s ? ? ? ? ? ? ? ?]; destruct s.
  - rewrite (disconnect_controller id c w Hs) by (intros; congruence).
    by destruct w as [s ? ? ? ? ? ? ? ?]; destruct s.
Qed.

Lemma connectionSet_step (e : hub_event) (w : World) (L : gmap string query) :
  registry_inv w L →
  event_ok L e →
  dom (connectionSet (srv w)) = dom L →
  dom (connectionSet (srv (run (handle e) w))) = dom (live_step L e).
Proof.
  intros (_ & Hsock & _) Hok Hdom. destruct e as [id q|id]; simpl in *.
  - destruct (connection_registers id (Some q) w) as [_ ->].
    by rewrite !dom_insert_L, Hdom.
  - destruct Hok as [q Hq]. destruct (Hsock id q Hq) as (c & Hc & _).
    rewrite (disconnect_connectionSet id c w Hc).
    by rewrite !dom_delete_L, Hdom.
Qed.

Lemma connectionSet_events (evs : list hub_event) (w : World) (L : gmap string query) :
  registry_inv w L →
  currentServerMode (srv w) = mode_of_count (relay_count L) →
  events_ok L evs →
  dom (connectionSet (srv w)) = dom L →
  dom (connectionSet (srv (run_events evs w))) = dom (foldl live_step L evs).
Proof.
  revert w L. induction evs as [|e evs IH]; intros w L Hinv Hmode Hok Hdom; [done|].
  destruct Hok as [He Hok]. simpl.
  destruct (event_step e w L Hinv Hmode He) as [Hinv' Hmode'].
  apply IH; try done. by apply connectionSet_step.
Qed.

(** X22. [connectionSet], unlike the connections list, follows the live
    connections: on a hub that starts without connections and child servers
    (console set up), after any sequence of connects with fresh ids and
    disconnects of live sockets, its keys are exactly the ids of the sockets
    that are still connected. *)
Theorem connectionSet_tracks_live (w0 : World) (evs : list hub_event) :
  connectionSet (srv w0) = ∅ →
  childServerList (srv w0) = ∅ →
  is_Some (sender w0) →
  events_ok ∅ evs →
  dom (connectionSet (srv (run_events evs w0))) = dom (live_after evs).
Proof.
  intros Hset Hcs Hsend Hok. unfold live_after.
  assert (registry_inv w0 ∅) as Hinv0.
  { split; [|split; [|done]].
    - by rewrite Hcs, map_filter_empty, !dom_empty_L.
    - intros id q Hl. by rewrite lookup_empty in Hl. }
  assert (dom (connectionSet (srv w0)) = dom (∅ : gmap string query)) as Hdom0
    by by rewrite Hset, !dom_empty_L.
  destruct evs as [|e evs]; [done|].
  destruct Hok as [He Hok]. simpl.
  destruct e as [id q|id]; simpl in He.
  - destruct (connect_step id q w0 ∅ Hinv0 He) as [Hinv1 Hmode1].
    apply connectionSet_events; try done.
    by apply (connectionSet_step (Connect id q) w0 ∅).
  - rewrite lookup_empty in He. by destruct He.
Qed.

Lemma connectionSet_tracks_live_witness :
  dom (connectionSet (srv (run_events sample_events initial_world)))
  = dom (live_after sample_events)
  ∧ connections (srv (run_events sample_events initial_world))
    = [SrvSocket "a"; SrvSocket "b"; SrvSocket "d"].
Proof.
  split.
  - apply (connectionSet_tracks_live initial_world sample_events).
    + reflexivity.
    + reflexivity.
    + exists tt. reflexivity.
    + simpl. repeat split; try (vm_compute; reflexivity);
        eexists; vm_compute; reflexivity.
  - vm_compute. reflexivity.
Defined.

(** ** Binding the port, losing the hub *)

Lemma http_on_error_result (w : World) :
  http_on_error w
  = (Ok tt,
     with_trace
       (λ t, t ++ [RouterNotifyServerMode multi;
                   IoClientOpen
                     (if ssl_cert w then "https://hardware.playentry.org:23518"
                      else "http://127.0.0.1:23518")
                     true 3 (next_client w)])
       (with_next_client S
          (with_srv (λ s, set_socketClient (HSocket (next_client w))
                            (set_connections (connections s ++ [CliSocket (next_client w)])
                               (set_currentServerMode multi
                                  (set_runningMode child s)))) w))).
Proof.
  destruct w as [s ? ? nc ? ? ? cert tr].
  unfold http_on_error, _getHttpServer, toggleServerMode, _createSocketClient.
  msimpl. destruct cert; unfold mret, M_ret; cbv beta iota; msimpl;
    unfold update, call; cbv beta iota;
    destruct s; world_eval; by rewrite <- ?app_assoc.
Qed.

(** X23. When the port cannot be bound, whatever the error, the process
    becomes a child with display mode multi and opens one new client socket
    to the hub, tagged as child server, with 3 reconnection attempts, at the
    https address if the certificate is there and else at 127.0.0.1. The
    socket is appended to the connections list and kept as [socketClient],
    so that from then on [send] hands a payload to every entry of the
    connections list, the uplink included. *)
Theorem bind_failure_makes_child (p : payload) (w : World) :
  let w' := run http_on_error w in
  let n := next_client w in
  outcome http_on_error w = Ok tt
  ∧ runningMode (srv w') = child
  ∧ currentServerMode (srv w') = multi
  ∧ socketClient (srv w') = HSocket n
  ∧ connections (srv w') = connections (srv w) ++ [CliSocket n]
  ∧ next_client w' = S n
  ∧ emitted http_on_error w
    = [RouterNotifyServerMode multi;
       IoClientOpen (if ssl_cert w then "https://hardware.playentry.org:23518"
                     else "http://127.0.0.1:23518") true 3 n]
  ∧ emitted (send p) w'
    = map (λ c, SocketEmit c "message" p) (connections (srv w) ++ [CliSocket n]).
Proof.
  simpl. unfold emitted at 1, outcome, run at 1 2 3 4 5 6. rewrite http_on_error_result.
  unfold emitted, run. rewrite http_on_error_result. cbn [snd].
  rewrite send_direct by (destruct w as [s ? ? ? ? ? ? ? ?]; destruct s; by right).
  destruct w as [s ? ? ? ? ? ? ? tr]; destruct s. simpl.
  rewrite !drop_app_length. by repeat split.
Qed.

(** X24. Failover: when the reconnection attempts of a child are used up and
    its own [open()] then succeeds, the process runs as parent with display
    mode single, has its socket.io server and no uplink handle; but the
    closed uplink socket is still in the connections list, so that as long
    as no child server is registered every [send] is also emitted to that
    closed socket. *)
Theorem failover_keeps_closed_uplink (n : nat) (p : payload) (w : World) :
  let w' := run (client_on_reconnect_failed n;; http_on_listening) w in
  runningMode (srv w') = parent
  ∧ currentServerMode (srv w') = single
  ∧ socketClient (srv w') = HNull
  ∧ is_Some (socketServer (srv w'))
  ∧ connections (srv w') = connections (srv w)
  ∧ (childServerList (srv w) = ∅ →
     emitted (send p) w'
     = map (λ c, SocketEmit c "message" p) (connections (srv w))).
Proof.
  simpl. unfold emitted, run. rewrite bind_run, reconnect_failed_demotes.
  rewrite listening_result. cbn [snd].
  split; [by destruct w as [s ? ? ? ? ? ? ? ?]; destruct s|].
  split; [by destruct w as [s ? ? ? ? ? ? ? ?]; destruct s|].
  split; [by destruct w as [s ? ? ? ? ? ? ? ?]; destruct s|].
  split; [destruct w as [s ? ? ? ? ? ? ? ?]; destruct s; by eexists|].
  split; [by destruct w as [s ? ? ? ? ? ? ? ?]; destruct s|].
  intros Hcs. rewrite send_direct.
  - destruct w as [s ? ? ? ? ? ? ? ?]; destruct s. simpl.
    by rewrite drop_app_length.
  - left. destruct w as [s ? ? ? ? ? ? ? ?]; destruct s. simpl in *. subst.
    split; [done | apply map_size_empty].
Qed.

Lemma failover_keeps_closed_uplink_witness :
  emitted (send PDisconnectHardware)
    (run (client_on_reconnect_failed 0;; http_on_listening) world_subordinate)
  = [SocketEmit (CliSocket 0) "message" PDisconnectHardware].
Proof.
  apply (failover_keeps_closed_uplink 0 PDisconnectHardware world_subordinate).
  reflexivity.
Defined.

(** ** The module request after a good response, and the console *)

(** X25. A module request that goes well, for a non-empty module name
    (with [global.sharedObject] in place): the GET request for
    [/api/hardware/<name>/module], the response with status 200 piped into
    the unpacker made for the directory [path.resolve('app', 'modules')],
    the read of the file [path.join] makes of that directory and
    [<name>.json], and then the configuration handed to the router, first
    with
    [sendState('show_robot', config)], then with [startScan(config)]. The
    promise is resolved when the unpacker is done, before the file has been
    read: if the file then does not parse, the callback throws and the
    router gets nothing although the promise is resolved. *)
Theorem module_request_success
    (moduleName : jsv) (config : string) (w : World) :
  truthy moduleName = true →
  is_Some (sharedObject w) →
  outcome (fetch_events moduleName (Config config)) w = Ok tt
  ∧ emitted (fetch_events moduleName (Config config)) w
    = [ConsoleLog
         (String.append "/api/hardware/" (String.append (prop_key moduleName) "/module"));
       NetRequest "GET" "localhost:4000" "http:"
         (String.append "/api/hardware/" (String.append (prop_key moduleName) "/module"));
       ResponsePipe (PathResolve ["app"; "modules"]);
       ConsoleLog "donedone";
       FsReadFile (PathJoin (PathResolve ["app"; "modules"])
                     (String.append (prop_key moduleName) ".json"));
       RouterSendState "show_robot" config;
       RouterStartScan config]
  ∧ outcome (zipStream_on_done moduleName) w = Ok Resolved
  ∧ filter is_commit (emitted (zipStream_on_done moduleName) w) = []
  ∧ (∃ e, outcome (fetch_events moduleName ConfigThrows) w = Throw e)
  ∧ filter is_commit (emitted (fetch_events moduleName ConfigThrows) w) = [].
Proof.
  intros Ht [so Hso]. destruct w as [s ? ? ? ? ? sh ? tr]. simpl in Hso. subst sh.
  unfold fetch_events, _requestHardware, request_on_response, zipStream_on_done,
    readFile_callback, emitted, outcome, run.
  rewrite Ht. simpl. unfold call, throw. msimpl. unfold with_trace. simpl.
  rewrite <- !app_assoc, !drop_app_length. simpl.
  split; [done|]. split; [done|]. split; [done|]. split; [done|].
  split; [by eexists | done].
Qed.

Lemma module_request_success_witness :
  emitted (fetch_events (Some "arduino") (Config "{}")) initial_world
  = [ConsoleLog "/api/hardware/arduino/module";
     NetRequest "GET" "localhost:4000" "http:" "/api/hardware/arduino/module";
     ResponsePipe (PathResolve ["app"; "modules"]);
     ConsoleLog "donedone";
     FsReadFile (PathJoin (PathResolve ["app"; "modules"]) "arduino.json");
     RouterSendState "show_robot" "{}";
     RouterStartScan "{}"].
Proof.
  destruct (module_request_success (Some "arduino") "{}" initial_world)
    as (_ & He & _); [reflexivity | by eexists |].
  rewrite He. reflexivity.
Defined.

(** X26. The console works only after [initialize] was given a window with
    [webContents]: before that, [log], [info], [warn] and [error] each
    throw a TypeError and send nothing. [initialize] itself throws only
    when no window is passed at all; it takes any object, and one without
    [webContents] leaves the console as unusable as before. After a good
    [initialize] each function sends exactly one message on the channel
    "console", the last three with their colour: dodgerblue, orange, red. *)
Theorem console_needs_initialize (contents err : string) (args : list string)
    (window : option unit) (w : World) :
  let w' := run (rendererConsole.initialize (Some window)) w in
  (sender w = None →
     (∃ e, rendererConsole.log contents args w = (Throw e, w))
     ∧ (∃ e, rendererConsole.info contents w = (Throw e, w))
     ∧ (∃ e, rendererConsole.warn contents w = (Throw e, w))
     ∧ (∃ e, rendererConsole.error contents err w = (Throw e, w)))
  ∧ (∃ e, rendererConsole.initialize None w = (Throw e, w))
  ∧ outcome (rendererConsole.initialize (Some window)) w = Ok tt
  ∧ sender w' = window
  ∧ (window = Some tt →
     emitted (rendererConsole.log contents args) w'
     = [SenderSend "console" (contents :: args)]
     ∧ emitted (rendererConsole.info contents) w'
       = [SenderSend "console" [String.append "%c" contents; "color: dodgerblue"]]
     ∧ emitted (rendererConsole.warn contents) w'
       = [SenderSend "console" [String.append "%c" contents; "color: orange"]]
     ∧ emitted (rendererConsole.error contents err) w'
       = [SenderSend "console" [String.append "%c" contents; "color: red"; err]]).
Proof.
  destruct w as [s ? ? ? ? sd ? ? tr]. simpl.
  unfold rendererConsole.log, rendererConsole.info, rendererConsole.warn,
    rendererConsole.error, rendererConsole.send, rendererConsole.initialize,
    emitted, outcome, run, throw, call, with_trace.
  split; [|split; [by eexists|split; [done|split; [done|]]]].
  - intros ->. msimpl. repeat split; by eexists.
  - intros ->. msimpl. rewrite !drop_app_length. by repeat split.
Qed.

Lemma console_needs_initialize_witness :
  (∃ e, rendererConsole.info "Entry connected." world_silent_console
        = (Throw e, world_silent_console))
  ∧ emitted (rendererConsole.info "Entry connected.")
      (run (rendererConsole.initialize (Some (Some tt))) world_silent_console)
    = [SenderSend "console" ["%cEntry connected."; "color: dodgerblue"]].
Proof.
  destruct (console_needs_initialize "Entry connected." "" [] (Some tt)
              world_silent_console) as (Hbefore & _ & _ & _ & Hafter).
  split.
  - apply Hbefore. reflexivity.
  - apply Hafter. reflexivity.
Defined.

(** X27. What a disconnect announces. When a child server disconnects, the
    hub emits "matching" to every room the child had claimed, in the order
    of the claims, takes the child off [childServerList], and, only if no
    child server is left, emits mode single to everybody and notifies the
    router. The disconnect of any other connection emits nothing and leaves
    [childServerList] alone. *)
Theorem disconnect_announcements (id : string) (c : socket) (q : query) (w : World) :
  sockets w !! id = Some c →
  handshake c = Some q →
  let w' := run (connection_on_disconnect id) w in
  emitted (connection_on_disconnect id) w
  = (if is_childServer q then
       matching_announcements c
       ++ (if bool_decide (size (delete id (childServerList (srv w))) = 0%nat)
           then [IoEmit "mode" (PMode single); RouterNotifyServerMode single]
           else [])
     else [])
  ∧ childServerList (srv w')
    = (if is_childServer q then delete id (childServerList (srv w))
       else childServerList (srv w)).
Proof.
  intros Hs Hh. simpl. unfold emitted, run.
  destruct (is_childServer q) eqn:Hq.
  - rewrite (disconnect_relay id c q w Hs Hh Hq). cbv zeta. unfold keys_length.
    destruct w as [s ? ? ? ? ? ? ? tr]; destruct s as [? ? ? ? csl ? ? ? ? ? ? ? ? ?].
    simpl.
    destruct (bool_decide (Z.of_nat (size (delete id csl)) <= 0)) eqn:Hc.
    + apply bool_decide_eq_true in Hc.
      rewrite bool_decide_eq_true_2 by lia. simpl.
      by rewrite drop_app_length.
    + apply bool_decide_eq_false in Hc.
      rewrite bool_decide_eq_false_2 by lia. simpl.
      by rewrite drop_app_length, app_nil_r.
  - rewrite (disconnect_controller id c w Hs) by (intros; congruence).
    destruct w as [s ? ? ? ? ? ? ? tr]; destruct s. simpl.
    by rewrite drop_all.
Qed.

Lemma disconnect_announcements_witness :
  emitted (connection_on_disconnect "b") world_relay_claimed
  = [IoToEmit (Some "r2") "matching" PNone;
     IoEmit "mode" (PMode single); RouterNotifyServerMode single]
  ∧ emitted (connection_on_disconnect "c") world_relay_claimed = [].
Proof.
  destruct (disconnect_announcements "b"
              (Socket (Some (Query (Some "true") None)) None (Some [Some "r2"]))
              (Query (Some "true") None) world_relay_claimed)
    as [Hb _]; [vm_compute; reflexivity | reflexivity |].
  destruct (disconnect_announcements "c"
              (Socket (Some (Query None (Some "r2"))) (Some "r2") None)
              (Query None (Some "r2")) world_relay_claimed)
    as [Hc _]; [vm_compute; reflexivity | reflexivity |].
  split; [exact Hb | exact Hc].
Defined.
